(** * A shallow embedding of [app.py], the YouTube video summarizer

    The development follows the source file top to bottom:

    - Python values the code handles: strings as lists of Unicode code
      points, [None]-or-value as [option], exceptions as an explicit
      [result] type;
    - the string primitives the code calls ([str.split], [str.join],
      slicing, [range], [in], [lstrip], [strip]);
    - [urllib.parse.urlparse] and [parse_qs], as the part of the Python
      library [extract_video_id] rests on;
    - the six stage functions, the coordinator [process_youtube_video]
      and the [/summarize] route, over an explicit world (files on disk
      and the state of the external services) threaded through a small
      state-and-exception monad that also records every call that leaves
      the process. *)

From Stdlib Require Import ZArith NArith List Ascii String Lia Bool.
From stdpp Require Import base list gmap.

#[local] Set Warnings "-clear-no-such-hyp".

(** ** Python values *)

(** A Python [str] is a sequence of code points. *)
Definition char := N.
Definition str := list N.

(** The code points of an ASCII literal of the source. *)
Definition py (s : string) : str := map N_of_ascii (list_ascii_of_string s).

(** Exceptions: the class and the text [str(e)] gives.  Only subclasses of
    [Exception] are modelled; they are what [except Exception] catches. *)
Inductive exn_class :=
  | ValueError | TypeError | AttributeError | KeyError | IndexError
  | OverflowError | OSError | FileNotFoundError | BadRequest | RuntimeError.

Record exn := Exn { exn_kind : exn_class; exn_str : str }.

(** The outcome of evaluating an expression: a value, or an exception. *)
Inductive result (A : Type) :=
  | Ok (a : A)
  | Raise (e : exn).
Arguments Ok {A} a.
Arguments Raise {A} e.

Definition rbind {A B} (r : result A) (k : A -> result B) : result B :=
  match r with
  | Ok a => k a
  | Raise e => Raise e
  end.

(** ** String primitives *)

(** [str.isspace] on one code point: the characters [str.split()] and
    [str.strip()] treat as white space. *)
Definition isspace (c : char) : bool :=
  ((9 <=? c) && (c <=? 13) || (28 <=? c) && (c <=? 32) || (c =? 133)
   || (c =? 160) || (c =? 5760) || (8192 <=? c) && (c <=? 8202)
   || (c =? 8232) || (c =? 8233) || (c =? 8239) || (c =? 8287)
   || (c =? 12288))%N.

(** [text.split()]: the maximal runs of non-space characters, in order.
    [cur] is the word being read. *)
Fixpoint split_from (cur : str) (s : str) : list str :=
  match s with
  | [] => match cur with [] => [] | _ => [cur] end
  | c :: s' =>
      if isspace c
      then match cur with [] => split_from [] s' | _ => cur :: split_from [] s' end
      else split_from (cur ++ [c]) s'
  end.

Definition split (text : str) : list str := split_from [] text.

(** [sep.join(parts)]. *)
Fixpoint join (sep : str) (parts : list str) : str :=
  match parts with
  | [] => []
  | [x] => x
  | x :: rest => x ++ sep ++ join sep rest
  end.

(** [l[i:j]] with Python's treatment of negative and out-of-range bounds. *)
Definition slice_bound (len k : Z) : Z :=
  if (k <? 0)%Z then Z.max 0 (k + len) else Z.min k len.

Definition slice {A} (l : list A) (i j : Z) : list A :=
  let n := Z.of_nat (length l) in
  let a := slice_bound n i in
  let b := slice_bound n j in
  take (Z.to_nat (b - a)) (drop (Z.to_nat a) l).

(** [range(start, stop, step)] as a list.  The loop runs on fuel; the
    distance between the bounds is always enough of it. *)
Fixpoint range_up (fuel : nat) (i stop step : Z) : list Z :=
  match fuel with
  | O => []
  | S fuel' => if (i <? stop)%Z then i :: range_up fuel' (i + step) stop step else []
  end.

Fixpoint range_down (fuel : nat) (i stop step : Z) : list Z :=
  match fuel with
  | O => []
  | S fuel' => if (stop <? i)%Z then i :: range_down fuel' (i + step) stop step else []
  end.

Definition py_range (start stop step : Z) : result (list Z) :=
  if (step =? 0)%Z
  then Raise (Exn ValueError (py "range() arg 3 must not be zero"))
  else if (0 <? step)%Z
       then Ok (range_up (Z.to_nat (stop - start)) start stop step)
       else Ok (range_down (Z.to_nat (start - stop)) start stop step).

(** A one-character literal of the source. *)
Definition chr (s : string) : char := hd 0%N (py s).

(** [c in s] for one character [c]. *)
Definition mem (c : char) (s : str) : bool := existsb (N.eqb c) s.

(** [s.startswith(p)]. *)
Fixpoint is_prefix (p s : str) : bool :=
  match p, s with
  | [], _ => true
  | _ :: _, [] => false
  | a :: p', b :: s' => (a =? b)%N && is_prefix p' s'
  end.

(** [needle in hay], the substring test. *)
Fixpoint contains (needle hay : str) : bool :=
  is_prefix needle hay
  || match hay with
     | [] => false
     | _ :: hay' => contains needle hay'
     end.

(** [s.find(c)] for one character; [None] stands for [-1]. *)
Fixpoint str_find (c : char) (s : str) : option nat :=
  match s with
  | [] => None
  | x :: s' => if (x =? c)%N then Some O else option_map S (str_find c s')
  end.

(** [s.find(c, start)]. *)
Definition str_find_from (c : char) (start : nat) (s : str) : option nat :=
  option_map (fun i => (start + i)%nat) (str_find c (drop start s)).

(** [s.lstrip(...)]: drop the leading characters that satisfy [p]. *)
Fixpoint drop_while (p : char -> bool) (s : str) : str :=
  match s with
  | [] => []
  | c :: s' => if p c then drop_while p s' else s
  end.

(** [s.strip()]. *)
Definition strip (s : str) : str :=
  rev (drop_while isspace (rev (drop_while isspace s))).

(** [s.replace(c, "")]. *)
Definition remove_char (c : char) (s : str) : str :=
  List.filter (fun x => negb (x =? c)%N) s.

(** [s.replace(a, b)] for one-character [a] and [b]. *)
Definition replace_char (a b : char) (s : str) : str :=
  map (fun x => if (x =? a)%N then b else x) s.

(** [s.split(c, 1)]: the text before the first [c], and the text after
    it when there is a [c]. *)
Definition split_once (c : char) (s : str) : str * option str :=
  match str_find c s with
  | Some i => (take i s, Some (drop (S i) s))
  | None => (s, None)
  end.

(** [s.split(c)]: the pieces between the occurrences of [c], at least
    one.  [cur] is the piece being read. *)
Fixpoint split_on_from (c : char) (cur : str) (s : str) : list str :=
  match s with
  | [] => [cur]
  | x :: s' =>
      if (x =? c)%N then cur :: split_on_from c [] s'
      else split_on_from c (cur ++ [x]) s'
  end.

Definition split_on (c : char) (s : str) : list str := split_on_from c [] s.

(** The string a value holds, where the code has checked that it is not
    [None]. *)
Definition text_of (x : option str) : str :=
  match x with
  | Some s => s
  | None => []
  end.

(** [bool(x)] for a value that is a string or [None]. *)
Definition truthy (x : option str) : bool :=
  match x with
  | Some (_ :: _) => true
  | _ => false
  end.

(** ** [chunk_text] (app.py, lines 71-74) *)

Definition default_max_words : Z := 900.

Definition chunk_text (text : str) (max_words : Z) : result (list str) :=
  let words := split text in
  rbind (py_range 0 (Z.of_nat (length words)) max_words) (fun idx =>
  Ok (map (fun i => join (py " ") (slice words i (i + max_words))) idx)).

(** The lists of words the comprehension of [chunk_text] builds from index
    [i] on, before they are joined. *)
Definition windows_from {A} (words : list A) (m : Z) (fuel : nat) (i : Z)
  : list (list A) :=
  map (fun i => slice words i (i + m))
      (range_up fuel i (Z.of_nat (length words)) m).

(** ** Words *)

Definition nospace (w : str) : Prop := Forall (fun c => isspace c = false) w.

(** A word: what [split] returns, a non-empty run without white space. *)
Definition word (w : str) : Prop := w <> [] /\ nospace w.

(** The text with every run of white space replaced by one space and none
    left at either end: the words of the text, space-joined. *)
Definition normalize_ws (text : str) : str := join (py " ") (split text).

(** The number of words of a text. *)
Definition word_count (text : str) : Z := Z.of_nat (length (split text)).

(** ** [urllib.parse]: [urlparse] and [parse_qs]

    The two library functions [extract_video_id] calls, after CPython 3.12's
    [Lib/urllib/parse.py].  What they take from the Unicode database and
    from the codecs comes in through [Runtime]. *)

Record Runtime := {
  (** [unicodedata.normalize('NFKC', s)] *)
  nfkc : str -> str;
  (** whether [urlsplit] accepts a network location that holds both
      brackets: the host between them must be an IPv6 or IPvFuture literal *)
  bracketed_netloc_ok : str -> bool;
  (** [bytes.decode('utf-8', 'replace')] *)
  utf8_decode_replace : list N -> str;
  (** [int(s)] for a string: the integer it spells, if it spells one *)
  int_of_str : str -> option Z;
}.

Record ParseResult := {
  scheme : str;
  netloc : str;
  path : str;
  params : str;
  query : str;
  fragment : str;
}.

Definition isascii (c : char) : bool := (c <? 128)%N.

Definition isalpha_ascii (c : char) : bool :=
  ((65 <=? c) && (c <=? 90) || (97 <=? c) && (c <=? 122))%N.

Definition isdigit_ascii (c : char) : bool := ((48 <=? c) && (c <=? 57))%N.

(** [scheme_chars]: letters, digits and ["+-."]. *)
Definition scheme_char (c : char) : bool :=
  isalpha_ascii c || isdigit_ascii c || mem c (py "+-.").

Definition lower_ascii (c : char) : char :=
  if ((65 <=? c) && (c <=? 90))%N then (c + 32)%N else c.

(** [_UNSAFE_URL_BYTES_TO_REMOVE]: tab, carriage return, line feed. *)
Definition TAB : char := 9%N.
Definition CR : char := 13%N.
Definition LF : char := 10%N.

(** [for b in _UNSAFE_URL_BYTES_TO_REMOVE: url = url.replace(b, "")]. *)
Definition remove_unsafe_bytes (url : str) : str :=
  remove_char LF (remove_char CR (remove_char TAB url)).

(** [_WHATWG_C0_CONTROL_OR_SPACE]. *)
Definition c0_control_or_space (c : char) : bool := (c <=? 32)%N.

(** The scheme of [urlsplit]: the text before the first [":"] when it
    starts with a letter and holds scheme characters only; the result is
    the scheme and the rest of the URL. *)
Definition split_scheme (url : str) : str * str :=
  match str_find (chr ":") url, url with
  | Some (S i), c0 :: _ =>
      if isascii c0 && isalpha_ascii c0 && forallb scheme_char (take (S i) url)
      then (map lower_ascii (take (S i) url), drop (S (S i)) url)
      else ([], url)
  | _, _ => ([], url)
  end.

(** [_splitnetloc(url, start)]: the network location ends at the first of
    ["/"], ["?"] and ["#"], or with the URL. *)
Definition splitnetloc (url : str) (start : nat) : str * str :=
  let delim :=
    fold_left
      (fun delim c =>
         match str_find_from c start url with
         | Some wdelim => Nat.min delim wdelim
         | None => delim
         end)
      (py "/?#") (length url) in
  (take (delim - start) (drop start url), drop delim url).

(** [_checknetloc(netloc)]. *)
Definition checknetloc (rt : Runtime) (netloc : str) : result unit :=
  match netloc with
  | [] => Ok tt
  | _ =>
      if forallb isascii netloc then Ok tt
      else
        let n := remove_char (chr "?") (remove_char (chr "#")
                   (remove_char (chr ":") (remove_char (chr "@") netloc))) in
        let netloc2 := nfkc rt n in
        if bool_decide (n = netloc2) then Ok tt
        else if existsb (fun c => mem c netloc2) (py "/?#@:")
             then Raise (Exn ValueError
                    (py "netloc '" ++ netloc ++
                     py "' contains invalid characters under NFKC normalization"))
             else Ok tt
  end.

(** [urlsplit(url)] with the default scheme [''] and fragments allowed:
    scheme, network location, path, query, fragment. *)
Definition urlsplit (rt : Runtime) (url : str)
  : result (str * str * str * str * str) :=
  let url := drop_while c0_control_or_space url in
  let url := remove_unsafe_bytes url in
  let '(scheme, url) := split_scheme url in
  rbind
    (if is_prefix (py "//") url
     then
       let '(netloc, url) := splitnetloc url 2 in
       if mem (chr "[") netloc && negb (mem (chr "]") netloc)
          || mem (chr "]") netloc && negb (mem (chr "[") netloc)
       then Raise (Exn ValueError (py "Invalid IPv6 URL"))
       else if mem (chr "[") netloc && mem (chr "]") netloc
                 && negb (bracketed_netloc_ok rt netloc)
            then Raise (Exn ValueError (py "Invalid IPv6 URL"))
            else Ok (netloc, url)
     else Ok ([], url))
    (fun '(netloc, url) =>
       let '(url, fragment) :=
         match split_once (chr "#") url with
         | (u, Some f) => (u, f)
         | (u, None) => (u, [])
         end in
       let '(url, query) :=
         match split_once (chr "?") url with
         | (u, Some q) => (u, q)
         | (u, None) => (u, [])
         end in
       rbind (checknetloc rt netloc) (fun _ =>
       Ok (scheme, netloc, url, query, fragment))).

(** [uses_params]. *)
Definition uses_params : list str :=
  [ []; py "ftp"; py "hdl"; py "prospero"; py "http"; py "imap"; py "https";
    py "shttp"; py "rtsp"; py "rtspu"; py "sip"; py "sips"; py "mms";
    py "sftp"; py "tel" ].

(** [s.rfind(c)]. *)
Definition str_rfind (c : char) (s : str) : option nat :=
  option_map (fun i => (length s - 1 - i)%nat) (str_find c (rev s)).

(** [_splitparams(url)]. *)
Definition splitparams (url : str) : str * str :=
  let found :=
    match str_rfind (chr "/") url with
    | Some slash => str_find_from (chr ";") slash url
    | None => str_find (chr ";") url
    end in
  match found with
  | Some i => (take i url, drop (S i) url)
  | None => (url, [])
  end.

Definition urlparse (rt : Runtime) (url : str) : result ParseResult :=
  rbind (urlsplit rt url) (fun '(scheme, netloc, url, query, fragment) =>
  let '(url, params) :=
    if bool_decide (scheme ∈ uses_params) && mem (chr ";") url
    then splitparams url
    else (url, []) in
  Ok {| scheme := scheme; netloc := netloc; path := url; params := params;
        query := query; fragment := fragment |}).

(** The value of a hexadecimal digit. *)
Definition hexval (c : char) : option N :=
  if ((48 <=? c) && (c <=? 57))%N then Some (c - 48)%N
  else if ((65 <=? c) && (c <=? 70))%N then Some (c - 55)%N
  else if ((97 <=? c) && (c <=? 102))%N then Some (c - 87)%N
  else None.

(** [unquote_to_bytes] on an ASCII string: every ["%XX"] with two
    hexadecimal digits becomes the byte, anything else stands for itself. *)
Fixpoint unquote_to_bytes (s : str) : list N :=
  match s with
  | [] => []
  | c :: s' =>
      if (c =? 37)%N
      then match s' with
           | h1 :: h2 :: rest =>
               match hexval h1, hexval h2 with
               | Some a, Some b => (16 * a + b)%N :: unquote_to_bytes rest
               | _, _ => c :: unquote_to_bytes s'
               end
           | _ => c :: unquote_to_bytes s'
           end
      else c :: unquote_to_bytes s'
  end.

(** The loop of [unquote]: each maximal ASCII run is unquoted to bytes and
    decoded, the other characters are kept.  [run] is the run being read. *)
Definition unquote_run (rt : Runtime) (run : str) : str :=
  match run with
  | [] => []
  | _ => utf8_decode_replace rt (unquote_to_bytes run)
  end.

Fixpoint unquote_from (rt : Runtime) (run : str) (s : str) : str :=
  match s with
  | [] => unquote_run rt run
  | c :: s' =>
      if isascii c then unquote_from rt (run ++ [c]) s'
      else unquote_run rt run ++ c :: unquote_from rt [] s'
  end.

(** [unquote(string)] with the defaults [encoding='utf-8'],
    [errors='replace']. *)
Definition unquote (rt : Runtime) (s : str) : str :=
  if mem (chr "%") s then unquote_from rt [] s else s.

(** [parse_qsl(qs)] with the defaults: fields are separated by ["&"], a
    field without ["="] or with a blank value is dropped. *)
Definition parse_field (rt : Runtime) (name_value : str) : list (str * str) :=
  match name_value with
  | [] => []
  | _ =>
      match split_once (chr "=") name_value with
      | (name, Some (v :: value)) =>
          [ (unquote rt (replace_char (chr "+") (chr " ") name),
             unquote rt (replace_char (chr "+") (chr " ") (v :: value))) ]
      | _ => []
      end
  end.

Definition parse_qsl (rt : Runtime) (qs : str) : list (str * str) :=
  flat_map (parse_field rt) (split_on (chr "&") qs).

(** [parse_qs(qs)]: the dictionary from each name to its values in order. *)
Definition parse_qs_add (parsed_result : gmap str (list str)) (nv : str * str)
  : gmap str (list str) :=
  match parsed_result !! nv.1 with
  | Some values => <[nv.1 := values ++ [nv.2]]> parsed_result
  | None => <[nv.1 := [nv.2]]> parsed_result
  end.

Definition parse_qs (rt : Runtime) (qs : str) : gmap str (list str) :=
  fold_left parse_qs_add (parse_qsl rt qs) ∅.

(** ** [extract_video_id] (app.py, lines 17-27) *)

(** [try: body except Exception: return None]. *)
Definition except_none {A} (body : result (option A)) : result (option A) :=
  match body with
  | Ok v => Ok v
  | Raise _ => Ok None
  end.

(** [d.get("v", [None])[0]]. *)
Definition first_value (d : gmap str (list str)) (key : str)
  : result (option str) :=
  match d !! key with
  | Some (v :: _) => Ok (Some v)
  | Some [] => Raise (Exn IndexError (py "list index out of range"))
  | None => Ok None
  end.

Definition extract_video_id (rt : Runtime) (youtube_url : str)
  : result (option str) :=
  except_none
    (rbind (urlparse rt youtube_url) (fun parsed_url =>
     if contains (py "youtube.com") (netloc parsed_url)
     then first_value (parse_qs rt (query parsed_url)) (py "v")
     else if contains (py "youtu.be") (netloc parsed_url)
          then Ok (Some (drop_while (N.eqb (chr "/")) (path parsed_url)))
          else Ok None)).

(** ** The world outside the process

    The files on disk, and the state of the external services (the
    transcript API, yt-dlp, pydub, Whisper, the summarization model), which
    may answer differently from one call to the next. *)

Record World := {
  files : gset str;
  services : nat;
}.

(** One entry of a transcript; of its fields the code reads ["text"]. *)
Record Entry := { entry_text : str }.

(** The external collaborators.  Each reads and changes the world and
    either answers or raises. *)
Record Env := {
  runtime : Runtime;
  (** [YouTubeTranscriptApi.get_transcript(video_id)] *)
  get_transcript : str -> World -> result (list Entry) * World;
  (** [subprocess.run(command, capture_output=True)] *)
  subprocess_run : list str -> World -> result unit * World;
  (** [AudioSegment.from_file(input_audio).export(output_audio, format="wav")] *)
  audio_convert : str -> str -> World -> result unit * World;
  (** [whisper_model.transcribe(audio_file)["text"]] *)
  whisper_transcribe : str -> World -> result str * World;
  (** [summarizer(chunk, max_length=.., min_length=.., do_sample=False)[0]['summary_text']] *)
  summarizer : str -> Z -> Z -> World -> result str * World;
}.

(** The calls that leave the process, in the order they are made. *)
Inductive Event :=
  | CallGetTranscript (video_id : str)
  | CallSubprocessRun (command : list str)
  | CallAudioConvert (input_audio output_audio : str)
  | CallTranscribe (audio_file : str)
  | CallSummarizer (chunk : str) (max_length min_length : Z)
  | CallPathExists (file : str)
  | CallRemove (file : str).

Record State := {
  world : World;
  calls : list Event;
}.

(** Computations that read and change the state and may raise.  The state
    an exception leaves behind is the state at the point it was raised. *)
Definition M (A : Type) : Type := State -> result A * State.

Definition ret {A} (a : A) : M A := fun s => (Ok a, s).

Definition bind {A B} (m : M A) (k : A -> M B) : M B :=
  fun s =>
    match m s with
    | (Ok a, s') => k a s'
    | (Raise e, s') => (Raise e, s')
    end.

Definition lift {A} (r : result A) : M A := fun s => (r, s).

(** [try: body except Exception as e: handler]. *)
Definition try_except {A} (body : M A) (handler : exn -> M A) : M A :=
  fun s =>
    match body s with
    | (Ok a, s') => (Ok a, s')
    | (Raise e, s') => handler e s'
    end.

Notation "'do' x <- m ; k" := (bind m (fun x => k))
  (at level 10, x name, m at level 100, k at level 200).

(** A call to a collaborator: recorded, then made. *)
Definition call {A} (ev : Event) (f : World -> result A * World) : M A :=
  fun s =>
    let '(r, w) := f (world s) in
    (r, {| world := w; calls := calls s ++ [ev] |}).

(** [os.path.exists(file)]. *)
Definition os_path_exists (file : str) : M bool :=
  call (CallPathExists file)
       (fun w => (Ok (bool_decide (file ∈ files w)), w)).

(** [os.remove(file)]. *)
Definition os_remove (file : str) : M unit :=
  call (CallRemove file)
       (fun w =>
          if bool_decide (file ∈ files w)
          then (Ok tt, {| files := files w ∖ {[file]}; services := services w |})
          else (Raise (Exn FileNotFoundError
                         (py "[Errno 2] No such file or directory: '" ++ file ++ py "'")),
                w)).

(** ** The stages (app.py, lines 29-89)

    The [print] calls of the source write progress lines to the standard
    output and are left out. *)

Definition get_youtube_transcript (env : Env) (video_id : str) : M (option str) :=
  try_except
    (do transcript <- call (CallGetTranscript video_id) (get_transcript env video_id);
     ret (match transcript with
          | [] => None
          | _ => Some (join (py " ") (map entry_text transcript))
          end))
    (fun _ => ret None).

(** The [command] of [download_audio]. *)
Definition ytdlp_command (youtube_url output_path : str) : list str :=
  [ py "yt-dlp"; py "-f"; py "bestaudio"; py "--extract-audio";
    py "--audio-format"; py "mp3"; py "--output"; output_path; youtube_url ].

Definition download_audio (env : Env) (youtube_url : str) (output_path : str)
  : M (option str) :=
  let command := ytdlp_command youtube_url output_path in
  do _ <- call (CallSubprocessRun command) (subprocess_run env command);
  do present <- os_path_exists output_path;
  if present then ret (Some output_path) else ret None.

Definition convert_audio_to_wav (env : Env) (input_audio : str) (output_audio : str)
  : M (option str) :=
  try_except
    (do _ <- call (CallAudioConvert input_audio output_audio)
                  (audio_convert env input_audio output_audio);
     ret (Some output_audio))
    (fun _ => ret None).

Definition transcribe_audio (env : Env) (audio_file : str) : M (option str) :=
  try_except
    (do text <- call (CallTranscribe audio_file) (whisper_transcribe env audio_file);
     ret (Some text))
    (fun _ => ret None).

(** The loop of [summarize_text]: a chunk the summarizer fails on is
    skipped. *)
Fixpoint summarize_chunks (env : Env) (chunks : list str)
    (max_length min_length : Z) (summaries : list str) : M (list str) :=
  match chunks with
  | [] => ret summaries
  | chunk :: rest =>
      do summaries <-
        try_except
          (do summary <- call (CallSummarizer chunk max_length min_length)
                              (summarizer env chunk max_length min_length);
           ret (summaries ++ [summary]))
          (fun _ => ret summaries);
      summarize_chunks env rest max_length min_length summaries
  end.

Definition summarize_text (env : Env) (text : str) (max_length min_length : Z)
  : M (option str) :=
  do chunks <- lift (chunk_text text default_max_words);
  do summaries <- summarize_chunks env chunks max_length min_length [];
  ret (match summaries with
       | [] => None
       | _ => Some (join (py " ") summaries)
       end).

(** ** [process_youtube_video] (app.py, lines 91-129) *)

(** The loop that removes the temporary files. *)
Fixpoint cleanup (paths : list str) : M unit :=
  match paths with
  | [] => ret tt
  | file :: rest =>
      do present <- os_path_exists file;
      do _ <- (if present then os_remove file else ret tt);
      cleanup rest
  end.

Definition temporary_files : list str := [py "audio.mp3"; py "audio.wav"].

(** Step 2 (lines 105-126): no transcript was found, the audio is
    downloaded, converted, transcribed and summarized, and the temporary
    files are removed. *)
Definition process_audio (env : Env) (youtube_url : str) : M (option str) :=
  do input_audio <- download_audio env youtube_url (py "audio.mp3");
  if negb (truthy input_audio)
  then ret (Some (py "Error: Failed to download audio"))
  else
    do output_audio <-
      convert_audio_to_wav env (text_of input_audio) (py "audio.wav");
    if negb (truthy output_audio)
    then ret (Some (py "Error: Failed to convert audio"))
    else
      do transcript <- transcribe_audio env (text_of output_audio);
      if negb (truthy transcript)
      then ret (Some (py "Error: Failed to transcribe audio"))
      else
        do summary <- summarize_text env (text_of transcript) 150 50;
        do _ <- cleanup temporary_files;
        ret (if truthy summary then summary
             else Some (py "Error: Summarization failed")).

Definition process_youtube_video (env : Env) (youtube_url : str) : M (option str) :=
  try_except
    (do video_id <- lift (extract_video_id (runtime env) youtube_url);
     match video_id with
     | Some (c :: cs) =>
         let video_id := c :: cs in
         (* Step 1: check if a transcript is available *)
         do transcript <- get_youtube_transcript env video_id;
         if truthy transcript
         then summarize_text env (text_of transcript) 150 50
         else process_audio env youtube_url
     | _ => ret (Some (py "Error: Invalid YouTube URL"))
     end)
    (fun e => ret (Some (py "Error: " ++ exn_str e))).

(** The steps of the audio path, as they show in the record of calls. *)
Inductive AudioStep := Download | Convert | Transcribe.

Definition audio_step (ev : Event) : option AudioStep :=
  match ev with
  | CallSubprocessRun _ => Some Download
  | CallAudioConvert _ _ => Some Convert
  | CallTranscribe _ => Some Transcribe
  | _ => None
  end.

Definition audio_steps (evs : list Event) : list AudioStep := omap audio_step evs.

(** ** The [/summarize] route (app.py, lines 136-158) *)

(** A float, as far as [int()] tells floats apart. *)
Inductive pyfloat :=
  | Finite (truncated : Z)
  | Infinite
  | NaN.

(** The values [request.get_json] returns. *)
#[warnings="-register-all"] Inductive json :=
  | JNull
  | JBool (b : bool)
  | JInt (z : Z)
  | JFloat (f : pyfloat)
  | JStr (s : str)
  | JArray (items : list json)
  | JObject (members : list (str * json)).

Definition type_name (v : json) : str :=
  match v with
  | JNull => py "NoneType"
  | JBool _ => py "bool"
  | JInt _ => py "int"
  | JFloat _ => py "float"
  | JStr _ => py "str"
  | JArray _ => py "list"
  | JObject _ => py "dict"
  end.

Definition no_attribute (v : json) (attribute : string) : exn :=
  Exn AttributeError
      (py "'" ++ type_name v ++ py "' object has no attribute '" ++ py attribute
       ++ py "'").

Fixpoint assoc (key : str) (members : list (str * json)) : option json :=
  match members with
  | [] => None
  | (k, v) :: rest => if bool_decide (k = key) then Some v else assoc key rest
  end.

(** [data.get(key, default)]. *)
Definition json_get (data : json) (key : str) (default : json) : result json :=
  match data with
  | JObject members =>
      Ok (match assoc key members with Some v => v | None => default end)
  | _ => Raise (no_attribute data "get")
  end.

(** [v.strip()]. *)
Definition json_strip (v : json) : result str :=
  match v with
  | JStr s => Ok (strip s)
  | _ => Raise (no_attribute v "strip")
  end.

(** [int(v)]. *)
Definition py_int (rt : Runtime) (v : json) : result Z :=
  match v with
  | JInt z => Ok z
  | JBool b => Ok (if b then 1 else 0)%Z
  | JFloat (Finite z) => Ok z
  | JFloat Infinite =>
      Raise (Exn OverflowError (py "cannot convert float infinity to integer"))
  | JFloat NaN => Raise (Exn ValueError (py "cannot convert float NaN to integer"))
  | JStr s =>
      match int_of_str rt s with
      | Some z => Ok z
      | None =>
          Raise (Exn ValueError
                   (py "invalid literal for int() with base 10: '" ++ s ++ py "'"))
      end
  | _ =>
      Raise (Exn TypeError
               (py "int() argument must be a string, a bytes-like object or a real number, not '"
                ++ type_name v ++ py "'"))
  end.

(** The request, as the handler reads it: what
    [request.get_json(force=True)] returns or raises. *)
Record Request := { get_json : result json }.

(** [jsonify({"summary": ..})] and [jsonify({"error": ..})]. *)
Inductive ResponseBody :=
  | SummaryBody (summary : str)
  | ErrorBody (error : str).

Record Response := {
  body : ResponseBody;
  status : Z;
}.

(** ["Error" in summary]: a [TypeError] when [summary] is [None]. *)
Definition error_in (summary : option str) : result bool :=
  match summary with
  | Some s => Ok (contains (py "Error") s)
  | None => Raise (Exn TypeError (py "argument of type 'NoneType' is not iterable"))
  end.

(** Lines 139-142: the URL and the two length bounds of the request. *)
Definition read_request (rt : Runtime) (request : Request) : result (str * Z * Z) :=
  rbind (get_json request) (fun data =>
  rbind (rbind (json_get data (py "youtube_url") (JStr [])) json_strip)
        (fun youtube_url =>
  rbind (rbind (json_get data (py "max_length") (JInt 150)) (py_int rt))
        (fun max_length =>
  rbind (rbind (json_get data (py "min_length") (JInt 50)) (py_int rt))
        (fun min_length =>
  Ok (youtube_url, max_length, min_length))))).

Definition summarize (env : Env) (request : Request) : M Response :=
  try_except
    (do fields <- lift (read_request (runtime env) request);
     let '(youtube_url, max_length, min_length) := fields in
     match youtube_url with
     | [] => ret {| body := ErrorBody (py "No YouTube URL provided"); status := 400 |}
     | _ =>
         do summary <- process_youtube_video env youtube_url;
         do failed <- lift (error_in summary);
         if failed
         then ret {| body := ErrorBody (text_of summary); status := 500 |}
         else ret {| body := SummaryBody (text_of summary); status := 200 |}
     end)
    (fun e => ret {| body := ErrorBody (py "Server error: " ++ exn_str e);
                     status := 500 |}).

(** ** Scenarios

    Concrete collaborators, for running the pipeline on examples. *)

(** A runtime for ASCII text, on which NFKC normalization and UTF-8
    decoding change nothing; [int] reads unsigned decimal numerals. *)
Definition decimal (s : str) : option Z :=
  match s with
  | [] => None
  | _ =>
      if forallb isdigit_ascii s
      then Some (fold_left (fun acc c => 10 * acc + Z.of_N (c - 48)) s 0)%Z
      else None
  end.

Definition ascii_runtime : Runtime := {|
  nfkc := fun s => s;
  bracketed_netloc_ok := fun _ => false;
  utf8_decode_replace := fun bytes => bytes;
  int_of_str := fun s => decimal (strip s);
|}.

Definition with_file (file : str) (w : World) : World :=
  {| files := files w ∪ {[file]}; services := services w |}.

Definition tick (w : World) : World :=
  {| files := files w; services := S (services w) |}.

(** The transcript API: a transcript is there, or transcripts are
    disabled for the video. *)
Definition transcript_available (lines : list str)
  : str -> World -> result (list Entry) * World :=
  fun _ w => (Ok (map Build_Entry lines), w).

Definition transcript_disabled : str -> World -> result (list Entry) * World :=
  fun _ w => (Raise (Exn RuntimeError (py "Subtitles are disabled for this video")), w).

(** yt-dlp: it writes the file named after [--output]; or it exits with an
    error and writes nothing; or it is not installed. *)
Definition ytdlp_downloads : list str -> World -> result unit * World :=
  fun command w => (Ok tt, with_file (nth 7 command []) w).

Definition ytdlp_fails : list str -> World -> result unit * World :=
  fun _ w => (Ok tt, w).

Definition ytdlp_missing : list str -> World -> result unit * World :=
  fun _ w =>
    (Raise (Exn FileNotFoundError (py "[Errno 2] No such file or directory: 'yt-dlp'")), w).

(** pydub: it writes the output file; or it cannot decode the input. *)
Definition convert_writes : str -> str -> World -> result unit * World :=
  fun _ output_audio w => (Ok tt, with_file output_audio w).


(** Whisper: it hears the given text. *)
Definition whisper_hears (text : str) : str -> World -> result str * World :=
  fun _ w => (Ok text, w).

(** The summarization model: it answers with a fixed summary; or it fails
    on every call; or it fails on its second call only. *)
Definition summarizer_answers (summary : str)
  : str -> Z -> Z -> World -> result str * World :=
  fun _ _ _ w => (Ok summary, tick w).

Definition summarizer_down : str -> Z -> Z -> World -> result str * World :=
  fun _ _ _ w => (Raise (Exn RuntimeError (py "index out of range in self")), tick w).

Definition summarizer_fails_second : str -> Z -> Z -> World -> result str * World :=
  fun chunk _ _ w =>
    if (services w =? 1)%nat
    then (Raise (Exn RuntimeError (py "index out of range in self")), tick w)
    else (Ok (py "summary of call " ++ [48 + N.of_nat (services w)]%N), tick w).

Definition empty_world : World := {| files := ∅; services := 0 |}.

Definition start (w : World) : State := {| world := w; calls := [] |}.

(** A video with a platform transcript, and a summarizer that is down. *)
Definition env_transcript_summarizer_down : Env := {|
  runtime := ascii_runtime;
  get_transcript := transcript_available [py "hello world"; py "this is a test"];
  subprocess_run := ytdlp_downloads;
  audio_convert := convert_writes;
  whisper_transcribe := whisper_hears (py "hello world this is a test");
  summarizer := summarizer_down;
|}.

(** A video without a transcript; the audio path works, and the summarizer
    answers with the given text. *)
Definition env_audio (summary : str) : Env := {|
  runtime := ascii_runtime;
  get_transcript := transcript_disabled;
  subprocess_run := ytdlp_downloads;
  audio_convert := convert_writes;
  whisper_transcribe := whisper_hears (py "hello world this is a test");
  summarizer := summarizer_answers summary;
|}.

(** A video without a transcript; the audio path works, and the summarizer
    is down. *)
Definition env_audio_summarizer_down : Env := {|
  runtime := ascii_runtime;
  get_transcript := transcript_disabled;
  subprocess_run := ytdlp_downloads;
  audio_convert := convert_writes;
  whisper_transcribe := whisper_hears (py "hello world this is a test");
  summarizer := summarizer_down;
|}.

(** A video with a platform transcript and a working summarizer. *)
Definition env_transcript (summary : str) : Env := {|
  runtime := ascii_runtime;
  get_transcript := transcript_available [py "hello world"; py "this is a test"];
  subprocess_run := ytdlp_downloads;
  audio_convert := convert_writes;
  whisper_transcribe := whisper_hears (py "hello world this is a test");
  summarizer := summarizer_answers summary;
|}.

(** A video without a transcript whose download fails, and one on a
    machine without yt-dlp. *)
Definition env_download_fails : Env := {|
  runtime := ascii_runtime;
  get_transcript := transcript_disabled;
  subprocess_run := ytdlp_fails;
  audio_convert := convert_writes;
  whisper_transcribe := whisper_hears (py "hello world this is a test");
  summarizer := summarizer_answers (py "a test");
|}.

Definition env_ytdlp_missing : Env := {|
  runtime := ascii_runtime;
  get_transcript := transcript_disabled;
  subprocess_run := ytdlp_missing;
  audio_convert := convert_writes;
  whisper_transcribe := whisper_hears (py "hello world this is a test");
  summarizer := summarizer_answers (py "a test");
|}.

Definition watch_url : str := py "https://youtube.com/watch?v=abc123".

Definition post (members : list (str * json)) : Request :=
  {| get_json := Ok (JObject members) |}.

(** A text of two thousand words, which [chunk_text] cuts into chunks of
    900, 900 and 200 words. *)
Definition words_of (n : nat) : list str := replicate n (py "word").

Definition long_text : str := join (py " ") (words_of 2000).

Definition env_second_chunk_fails : Env := {|
  runtime := ascii_runtime;
  get_transcript := transcript_available [long_text];
  subprocess_run := ytdlp_downloads;
  audio_convert := convert_writes;
  whisper_transcribe := whisper_hears long_text;
  summarizer := summarizer_fails_second;
|}.


(** A disk on which an earlier request left its download behind. *)
Definition stale_world : World := with_file (py "audio.mp3") empty_world.

(** ** Recognized URLs

    The two forms of URL the spec names, spelled out: a watch page
    [<scheme>://<host>/watch?v=<id>], perhaps followed by more parameters
    or a fragment, and a short link [<scheme>://<host>/<id>], perhaps
    followed by a query or a fragment; the scheme is http or https. *)

(** The characters of a host name: letters, digits, ["-"] and ["."]. *)
Definition host_char (c : char) : bool :=
  isalpha_ascii c || isdigit_ascii c || mem c (py "-.").

(** The characters of a video identifier: letters, digits, ["-"] and ["_"]. *)
Definition id_char (c : char) : bool :=
  isalpha_ascii c || isdigit_ascii c || mem c (py "-_").


(** The schemes of a web page. *)
Definition web_scheme (protocol : str) : Prop :=
  protocol = py "http" \/ protocol = py "https".



(** ** What a run may change

    Relations between the state before a computation and the state after
    it, to say what the pipeline leaves alone. *)

(** Every run of [m] takes a state to one related to it by [R]. *)
Definition respects {A} (R : State -> State -> Prop) (m : M A) : Prop :=
  forall s r s', m s = (r, s') -> R s s'.

(** The record of calls grows, and by calls that satisfy [P] only. *)
Definition adds_calls (P : Event -> Prop) (s s' : State) : Prop :=
  exists evs, calls s' = calls s ++ evs /\ Forall P evs.

(** A call of the summarizer with the default bounds of [summarize_text]. *)
Definition default_bounds (ev : Event) : Prop :=
  match ev with
  | CallSummarizer _ max_length min_length =>
      max_length = 150%Z /\ min_length = 50%Z
  | _ => True
  end.

(** A removal of one of the two temporary files. *)
Definition removes_temporary (ev : Event) : Prop :=
  match ev with
  | CallRemove file => file ∈ temporary_files
  | _ => True
  end.

(** The file is there after the run exactly if it was there before. *)
Definition same_file (file : str) (s s' : State) : Prop :=
  file ∈ files (world s) <-> file ∈ files (world s').

(** A collaborator that neither creates nor deletes the file. *)
Definition leaves_file {A} (file : str) (f : World -> result A * World) : Prop :=
  forall w, file ∈ files w <-> file ∈ files (f w).2.

(** Collaborators that leave the file alone in every call the pipeline
    can make: the download to audio.mp3, the conversion to audio.wav, and
    the summarizer with the default bounds. *)
Definition env_leaves_file (file : str) (env : Env) : Prop :=
  (forall video_id, leaves_file file (get_transcript env video_id)) /\
  (forall youtube_url,
     leaves_file file
       (subprocess_run env (ytdlp_command youtube_url (py "audio.mp3")))) /\
  (forall input_audio,
     leaves_file file (audio_convert env input_audio (py "audio.wav"))) /\
  (forall audio_file, leaves_file file (whisper_transcribe env audio_file)) /\
  (forall chunk, leaves_file file (summarizer env chunk 150 50)).

(** What the pipeline does to the world, step by step: the calls to the
    collaborators (the download to audio.mp3, the conversion to audio.wav),
    the tests for a file, and the removal of a temporary file.  [R] holds
    across the pipeline when it holds across each. *)
Record Steps (R : State -> State -> Prop) (env : Env)
    (max_length min_length : Z) : Prop := {
  step_get_transcript : forall video_id,
    respects R (call (CallGetTranscript video_id) (get_transcript env video_id));
  step_subprocess_run : forall youtube_url,
    respects R
      (call (CallSubprocessRun (ytdlp_command youtube_url (py "audio.mp3")))
            (subprocess_run env (ytdlp_command youtube_url (py "audio.mp3"))));
  step_audio_convert : forall input_audio,
    respects R (call (CallAudioConvert input_audio (py "audio.wav"))
                     (audio_convert env input_audio (py "audio.wav")));
  step_transcribe : forall audio_file,
    respects R (call (CallTranscribe audio_file) (whisper_transcribe env audio_file));
  step_summarizer : forall chunk,
    respects R (call (CallSummarizer chunk max_length min_length)
                     (summarizer env chunk max_length min_length));
  step_path_exists : forall file, respects R (os_path_exists file);
  step_remove : forall file, file ∈ temporary_files -> respects R (os_remove file);
}.

(** The summary a call of the summarizer gave, if it gave one. *)
Definition answer_text (r : result str) : option str :=
  match r with
  | Ok summary => Some summary
  | Raise _ => None
  end.

(** A summarizer whose answer depends on the chunk alone. *)
Definition answers_by (env : Env) (max_length min_length : Z)
    (answer : str -> result str) : Prop :=
  forall chunk w, (summarizer env chunk max_length min_length w).1 = answer chunk.

(** A summarizer that shortens a chunk to its first word, and fails on a
    chunk that starts with "um". *)
Definition first_word (chunk : str) : result str :=
  match split chunk with
  | [] => Raise (Exn ValueError (py "empty input"))
  | w :: _ =>
      if bool_decide (w = py "um")
      then Raise (Exn RuntimeError (py "index out of range in self"))
      else Ok w
  end.

Definition env_first_word : Env := {|
  runtime := ascii_runtime;
  get_transcript := transcript_available [py "hello world"; py "this is a test"];
  subprocess_run := ytdlp_fails;
  audio_convert := convert_writes;
  whisper_transcribe := whisper_hears (py "hello world this is a test");
  summarizer := fun chunk _ _ w => (first_word chunk, tick w);
|}.

(** A video whose transcript is white space only. *)
Definition env_blank_transcript : Env := {|
  runtime := ascii_runtime;
  get_transcript := transcript_available [py " "; py "  "];
  subprocess_run := ytdlp_downloads;
  audio_convert := convert_writes;
  whisper_transcribe := whisper_hears (py "hello world this is a test");
  summarizer := summarizer_answers (py "a test");
|}.

(** A disk that holds a file of the user. *)
Definition world_with_notes : World := with_file (py "notes.txt") empty_world.

(** * Properties *)

(** ** Words and [split] *)

Lemma nospace_app (u v : str) : nospace u -> nospace v -> nospace (u ++ v).
Proof. unfold nospace. intros. by apply Forall_app. Qed.

Lemma split_from_words (s cur : str) :
  nospace cur -> Forall word (split_from cur s).
Proof.
  revert cur. induction s as [|c s IH]; intros cur Hcur; simpl.
  - destruct cur; constructor; [|constructor]. split; [done|exact Hcur].
  - destruct (isspace c) eqn:Hc.
    + destruct cur as [|d cur].
      * apply IH. constructor.
      * constructor; [split; [done|exact Hcur]|]. apply IH. constructor.
    + apply IH. apply nospace_app; [done|]. by repeat constructor.
Qed.

Lemma split_words (text : str) : Forall word (split text).
Proof. apply split_from_words. constructor. Qed.

Lemma split_from_nospace (w s cur : str) :
  nospace w -> split_from cur (w ++ s) = split_from (cur ++ w) s.
Proof.
  revert cur. induction w as [|c w IH]; intros cur Hw; simpl.
  - by rewrite app_nil_r.
  - inversion Hw as [|? ? Hc Hw']; subst. rewrite Hc, IH by done.
    by rewrite <- app_assoc.
Qed.

Lemma split_from_word_end (w : str) : word w -> split_from [] w = [w].
Proof.
  intros [Hne Hw]. rewrite <- (app_nil_r w) at 1.
  rewrite split_from_nospace by done. simpl. by destruct w.
Qed.

Lemma split_from_word_space (w rest : str) :
  word w -> split_from [] (w ++ py " " ++ rest) = w :: split_from [] rest.
Proof.
  intros [Hne Hw]. rewrite split_from_nospace by done. simpl.
  by destruct w.
Qed.

(** Splitting a space-joined sequence of words gives the words back. *)
Lemma split_join (ws : list str) :
  Forall word ws -> split (join (py " ") ws) = ws.
Proof.
  unfold split. induction 1 as [|w ws Hw Hws IH]; [done|].
  destruct ws as [|w' ws].
  - simpl. by apply split_from_word_end.
  - change (join (py " ") (w :: w' :: ws))
      with (w ++ py " " ++ join (py " ") (w' :: ws)).
    rewrite split_from_word_space by done. by rewrite IH.
Qed.

Lemma join_nonempty (sep : str) (ws : list str) :
  ws <> [] -> Forall word ws -> join sep ws <> [].
Proof.
  intros Hne Hws. destruct Hws as [|w ws [Hw _] _]; [done|].
  destruct ws; simpl; [done|]. by destruct w.
Qed.

Lemma join_app (sep : str) (xs ys : list str) :
  xs <> [] -> ys <> [] ->
  join sep (xs ++ ys) = join sep xs ++ sep ++ join sep ys.
Proof.
  intros Hx Hy. induction xs as [|x xs IH]; [done|].
  destruct xs as [|x' xs].
  - simpl. by destruct ys.
  - change (join sep ((x :: x' :: xs) ++ ys))
      with (x ++ sep ++ join sep ((x' :: xs) ++ ys)).
    rewrite IH by done. simpl. by rewrite <- !app_assoc.
Qed.

(** Joining the joined groups is joining all the words, as long as no group
    is empty. *)
Lemma join_concat (sep : str) (gs : list (list str)) :
  Forall (fun g => g <> []) gs ->
  join sep (map (join sep) gs) = join sep (concat gs).
Proof.
  induction 1 as [|g gs Hg Hgs IH]; [done|].
  destruct gs as [|g' gs].
  - simpl. by rewrite app_nil_r.
  - change (join sep (map (join sep) (g :: g' :: gs)))
      with (join sep g ++ sep ++ join sep (map (join sep) (g' :: gs))).
    rewrite IH. change (concat (g :: g' :: gs)) with (g ++ concat (g' :: gs)).
    rewrite join_app; [done|done|].
    inversion Hgs; subst. simpl. by destruct g'.
Qed.

(** ** Slices and ranges *)

Lemma slice_nonneg {A} (l : list A) (i j : Z) :
  (0 <= i)%Z -> (0 <= j)%Z ->
  slice l i j =
    take (Z.to_nat (Z.min j (Z.of_nat (length l)) - Z.min i (Z.of_nat (length l))))
         (drop (Z.to_nat (Z.min i (Z.of_nat (length l)))) l).
Proof.
  intros Hi Hj. unfold slice, slice_bound.
  destruct (Z.ltb_spec i 0), (Z.ltb_spec j 0); try lia. done.
Qed.

(** The window [words[i:i+m]] at an index inside the list: [m] words, or
    what is left of the list when fewer remain. *)
Lemma slice_window {A} (l : list A) (i m : Z) :
  (0 <= i < Z.of_nat (length l))%Z -> (1 <= m)%Z ->
  slice l i (i + m) =
    take (Z.to_nat (Z.min m (Z.of_nat (length l) - i))) (drop (Z.to_nat i) l).
Proof.
  intros Hi Hm. rewrite slice_nonneg by lia.
  f_equal; [f_equal; lia | f_equal; lia].
Qed.

Lemma slice_window_length {A} (l : list A) (i m : Z) :
  (0 <= i < Z.of_nat (length l))%Z -> (1 <= m)%Z ->
  Z.of_nat (length (slice l i (i + m))) = Z.min m (Z.of_nat (length l) - i).
Proof.
  intros Hi Hm. rewrite slice_window by done.
  rewrite length_take, length_drop. lia.
Qed.

Lemma slice_window_rest {A} (l : list A) (i m : Z) :
  (0 <= i < Z.of_nat (length l))%Z -> (1 <= m)%Z ->
  slice l i (i + m) ++ drop (Z.to_nat (i + m)) l = drop (Z.to_nat i) l.
Proof.
  intros Hi Hm. rewrite slice_window by done.
  destruct (Z.le_gt_cases m (Z.of_nat (length l) - i)) as [Hle|Hgt].
  - replace (Z.min m (Z.of_nat (length l) - i)) with m by lia.
    replace (Z.to_nat (i + m)) with (Z.to_nat i + Z.to_nat m)%nat by lia.
    rewrite <- drop_drop. apply take_drop.
  - rewrite (drop_ge l (Z.to_nat (i + m))) by lia.
    rewrite app_nil_r. apply take_ge. rewrite length_drop. lia.
Qed.

Section Windows.
Context {A : Type} (words : list A) (m : Z).
Hypothesis m_pos : (1 <= m)%Z.

Local Abbreviation n := (Z.of_nat (length words)).
Local Abbreviation windows_from := (windows_from words m).

Lemma windows_from_done fuel i : (n <= i)%Z -> windows_from fuel i = [].
Proof.
  intros Hi. unfold windows_from. destruct fuel; [done|]. simpl.
  destruct (Z.ltb_spec i n); [lia|done].
Qed.

Lemma windows_from_step fuel i :
  (i < n)%Z -> (Z.to_nat (n - i) <= fuel)%nat ->
  exists fuel', fuel = S fuel' /\ (Z.to_nat (n - (i + m)) <= fuel')%nat /\
    windows_from fuel i = slice words i (i + m) :: windows_from fuel' (i + m).
Proof.
  intros Hi Hfuel. destruct fuel as [|fuel']; [lia|].
  exists fuel'. split; [done|]. split; [lia|].
  unfold windows_from. simpl. destruct (Z.ltb_spec i n); [done|lia].
Qed.

Lemma windows_from_length fuel i :
  (0 <= i)%Z -> (Z.to_nat (n - i) <= fuel)%nat ->
  Z.of_nat (length (windows_from fuel i)) = ((Z.max 0 (n - i) + m - 1) / m)%Z.
Proof.
  revert i. induction fuel as [|fuel IH]; intros i Hi Hfuel.
  - rewrite windows_from_done by lia. simpl.
    replace (Z.max 0 (n - i)) with 0%Z by lia.
    symmetry. apply Z.div_small. lia.
  - destruct (Z.lt_ge_cases i n) as [Hlt|Hge].
    + destruct (windows_from_step (S fuel) i Hlt Hfuel) as (f' & Hf & Hf' & ->).
      injection Hf as <-. simpl length. rewrite Nat2Z.inj_succ, IH by lia.
      destruct (Z.le_gt_cases (i + m) n) as [Hle|Hgt].
      * replace (Z.max 0 (n - i) + m - 1)%Z
          with ((Z.max 0 (n - (i + m)) + m - 1) + 1 * m)%Z by lia.
        rewrite Z.div_add by lia. lia.
      * replace (Z.max 0 (n - (i + m)) + m - 1)%Z with (m - 1)%Z by lia.
        rewrite Z.div_small by lia.
        assert ((Z.max 0 (n - i) + m - 1) / m = 1)%Z as ->; [|lia].
        symmetry. apply Z.div_unique with (r := (n - i - 1)%Z); lia.
    + rewrite windows_from_done by lia. simpl.
      replace (Z.max 0 (n - i)) with 0%Z by lia.
      symmetry. apply Z.div_small. lia.
Qed.

Lemma windows_from_concat fuel i :
  (0 <= i)%Z -> (Z.to_nat (n - i) <= fuel)%nat ->
  concat (windows_from fuel i) = drop (Z.to_nat i) words.
Proof.
  revert i. induction fuel as [|fuel IH]; intros i Hi Hfuel.
  - rewrite windows_from_done by lia. simpl.
    symmetry. apply drop_ge. lia.
  - destruct (Z.lt_ge_cases i n) as [Hlt|Hge].
    + destruct (windows_from_step (S fuel) i Hlt Hfuel) as (f' & Hf & Hf' & ->).
      injection Hf as <-. simpl. rewrite IH by lia.
      apply slice_window_rest; [lia|done].
    + rewrite windows_from_done by lia. simpl.
      symmetry. apply drop_ge. lia.
Qed.

(** Every window holds between one and [m] words. *)
Lemma windows_from_sizes fuel i :
  (0 <= i)%Z ->
  Forall (fun g => (1 <= Z.of_nat (length g) <= m)%Z) (windows_from fuel i).
Proof.
  revert i. induction fuel as [|fuel IH]; intros i Hi; [constructor|].
  unfold windows_from. simpl. destruct (Z.ltb_spec i n) as [Hlt|]; [|constructor].
  constructor.
  - rewrite slice_window_length by (lia). lia.
  - apply IH. lia.
Qed.

(** Every window that has a successor holds exactly [m] words. *)
Lemma windows_from_full fuel i j g :
  (0 <= i)%Z -> (Z.to_nat (n - i) <= fuel)%nat ->
  windows_from fuel i !! j = Some g ->
  (S j < length (windows_from fuel i))%nat ->
  Z.of_nat (length g) = m.
Proof.
  revert i j. induction fuel as [|fuel IH]; intros i j Hi Hfuel Hg Hj.
  - by rewrite windows_from_done in Hg by lia.
  - destruct (Z.lt_ge_cases i n) as [Hlt|Hge].
    + destruct (windows_from_step (S fuel) i Hlt Hfuel) as (f' & Hf & Hf' & Heq).
      injection Hf as <-. rewrite Heq in Hg, Hj. simpl in Hj.
      destruct j as [|j].
      * injection Hg as <-.
        assert (i + m < n)%Z as Hnext.
        { destruct (Z.lt_ge_cases (i + m) n) as [|Hge]; [done|].
          rewrite windows_from_done in Hj by done. simpl in Hj. lia. }
        rewrite slice_window_length by (lia). lia.
      * simpl in Hg. apply (IH (i + m)%Z j); [lia|lia|done|lia].
    + by rewrite windows_from_done in Hg by lia.
Qed.
End Windows.

(** ** [chunk_text] *)

(** For a positive [max_words] the call returns: the joined windows over
    the words of the text. *)
Lemma chunk_text_windows (text : str) (max_words : Z) :
  (1 <= max_words)%Z ->
  chunk_text text max_words =
    Ok (map (join (py " "))
            (windows_from (split text) max_words (length (split text)) 0)).
Proof.
  intros Hm. unfold chunk_text, py_range, windows_from.
  destruct (Z.eqb_spec max_words 0); [lia|].
  destruct (Z.ltb_spec 0 max_words); [|lia].
  simpl. rewrite Z.sub_0_r, Nat2Z.id. by rewrite map_map.
Qed.

Lemma windows_words (text : str) (m : Z) (fuel : nat) (i : Z) :
  (0 <= i)%Z -> (1 <= m)%Z ->
  Forall (fun g => g <> [] /\ Forall word g) (windows_from (split text) m fuel i).
Proof.
  intros Hi Hm.
  pose proof (windows_from_sizes (split text) m Hm fuel i Hi) as Hsz.
  apply Forall_forall. intros g Hg.
  rewrite Forall_forall in Hsz. specialize (Hsz g Hg). split.
  - intros ->. simpl in Hsz. lia.
  - unfold windows_from in Hg. apply list_elem_of_In, in_map_iff in Hg.
    destruct Hg as (k & <- & _). unfold slice.
    apply Forall_take, Forall_drop, split_words.
Qed.

(** C1: for every text and every [max_words >= 1], [chunk_text] returns
    (it raises nothing), the space-joined chunks are the white-space
    normalized text, the number of chunks is the word count divided by
    [max_words] and rounded up, every chunk but the last holds exactly
    [max_words] words, and the empty string gives no chunk at all. *)
Theorem chunk_text_partitions (text : str) (max_words : Z) :
  (1 <= max_words)%Z ->
  exists chunks : list str,
    chunk_text text max_words = Ok chunks /\
    join (py " ") chunks = normalize_ws text /\
    Z.of_nat (length chunks) = ((word_count text + max_words - 1) / max_words)%Z /\
    ((Z.of_nat (length chunks) - 1) * max_words < word_count text
       <= Z.of_nat (length chunks) * max_words)%Z /\
    (forall j c, chunks !! j = Some c -> (S j < length chunks)%nat ->
                 word_count c = max_words) /\
    chunk_text [] max_words = Ok [].
Proof.
  intros Hm. eexists. split; [by apply chunk_text_windows|].
  set (ws := split text).
  pose proof (windows_words text max_words (length ws) 0 (Z.le_refl 0) Hm) as Hws.
  fold ws in Hws.
  assert (Z.of_nat (length (windows_from ws max_words (length ws) 0))
          = ((word_count text + max_words - 1) / max_words)%Z) as Hlen.
  { rewrite windows_from_length by lia. unfold word_count. fold ws.
    f_equal. lia. }
  split; [|split; [|split; [|split]]].
  - rewrite join_concat by (eapply Forall_impl; [exact Hws|by intros g [? _]]).
    rewrite windows_from_concat by lia. done.
  - by rewrite length_map.
  - rewrite length_map, Hlen.
    pose proof (Z.div_mod (word_count text + max_words - 1) max_words) as Hdm.
    pose proof (Z.mod_pos_bound (word_count text + max_words - 1) max_words).
    nia.
  - intros j c Hc Hj. rewrite length_map in Hj.
    rewrite list_lookup_fmap in Hc.
    destruct (windows_from ws max_words (length ws) 0 !! j) as [g|] eqn:Hg;
      [|done].
    injection Hc as <-. unfold word_count. rewrite split_join.
    + eapply (windows_from_full ws max_words Hm); [| |exact Hg|exact Hj]; lia.
    + rewrite Forall_forall in Hws. apply Hws.
      by eapply list_elem_of_lookup_2.
  - by rewrite chunk_text_windows.
Qed.

Lemma chunk_text_partitions_witness :
  exists chunks : list str,
    chunk_text (py "  one two   three four five ") 2 = Ok chunks /\
    join (py " ") chunks = normalize_ws (py "  one two   three four five ") /\
    Z.of_nat (length chunks)
      = ((word_count (py "  one two   three four five ") + 2 - 1) / 2)%Z /\
    ((Z.of_nat (length chunks) - 1) * 2
       < word_count (py "  one two   three four five ")
       <= Z.of_nat (length chunks) * 2)%Z /\
    (forall j c, chunks !! j = Some c -> (S j < length chunks)%nat ->
                 word_count c = 2%Z) /\
    chunk_text [] 2 = Ok [].
Proof.
  apply (chunk_text_partitions (py "  one two   three four five ") 2). lia.
Defined.

(** C10: for every text and every [max_words >= 1], every chunk that
    [chunk_text] returns is a non-empty string holding at least one word
    and at most [max_words] words; so is the last one, when there is one. *)
Theorem chunk_text_chunk_bounds (text : str) (max_words : Z) (chunks : list str) :
  (1 <= max_words)%Z ->
  chunk_text text max_words = Ok chunks ->
  Forall (fun c => c <> [] /\ (1 <= word_count c <= max_words)%Z) chunks /\
  (forall c, last chunks = Some c -> c <> [] /\ (1 <= word_count c)%Z).
Proof.
  intros Hm Hchunks. rewrite chunk_text_windows in Hchunks by done.
  injection Hchunks as <-.
  set (ws := split text).
  pose proof (windows_words text max_words (length ws) 0 (Z.le_refl 0) Hm) as Hws.
  pose proof (windows_from_sizes ws max_words Hm (length ws) 0 (Z.le_refl 0)) as Hsz.
  fold ws in Hws.
  assert (Forall (fun c => c <> [] /\ (1 <= word_count c <= max_words)%Z)
            (map (join (py " ")) (windows_from ws max_words (length ws) 0))) as HF.
  { apply Forall_fmap. rewrite Forall_forall in Hws, Hsz. apply Forall_forall.
    intros g Hg. destruct (Hws g Hg) as [Hne Hwords]. simpl. split.
    - by apply join_nonempty.
    - unfold word_count. rewrite split_join by done. by apply Hsz. }
  split; [exact HF|].
  intros c Hc. apply last_Some_elem_of in Hc.
  rewrite Forall_forall in HF. destruct (HF c Hc) as [? ?]. split; [done|lia].
Qed.

Lemma chunk_text_chunk_bounds_witness :
  Forall (fun c => c <> [] /\ (1 <= word_count c <= 2)%Z)
         [py "one two"; py "three four"; py "five"] /\
  (forall c, last [py "one two"; py "three four"; py "five"] = Some c ->
             c <> [] /\ (1 <= word_count c)%Z).
Proof.
  apply (chunk_text_chunk_bounds (py "  one two   three four five ") 2).
  - lia.
  - reflexivity.
Defined.

(** ** Running the monad *)

Lemma bind_ok {A B} (m : M A) (k : A -> M B) (s s' : State) (a : A) :
  m s = (Ok a, s') -> bind m k s = k a s'.
Proof. intros H. unfold bind. by rewrite H. Qed.

Lemma bind_raise {A B} (m : M A) (k : A -> M B) (s s' : State) (e : exn) :
  m s = (Raise e, s') -> bind m k s = (Raise e, s').
Proof. intros H. unfold bind. by rewrite H. Qed.

(** A collaborator called under [try: .. except Exception: return d]: the
    call is recorded, the world is what the collaborator left, and the
    result is never an exception. *)
Lemma guarded_call {A B} (ev : Event) (f : World -> result A * World)
    (g : A -> B) (d : B) (s : State) :
  try_except (do x <- call ev f; ret (g x)) (fun _ => ret d) s =
    (Ok (match (f (world s)).1 with Ok x => g x | Raise _ => d end),
     {| world := (f (world s)).2; calls := calls s ++ [ev] |}).
Proof.
  unfold try_except, bind, call, ret.
  by destruct (f (world s)) as [[x|e] w].
Qed.

(** ** [summarize_text] *)

Lemma chunk_text_default (text : str) :
  exists chunks, chunk_text text default_max_words = Ok chunks.
Proof. eexists. by apply chunk_text_windows. Qed.

(** The loop over the chunks never raises, and calls nothing but the
    summarizer. *)
Lemma summarize_chunks_returns (env : Env) (chunks : list str)
    (max_length min_length : Z) (summaries : list str) (s : State) :
  exists out s' evs,
    summarize_chunks env chunks max_length min_length summaries s = (Ok out, s') /\
    calls s' = calls s ++ evs /\
    Forall (fun ev => exists c a b, ev = CallSummarizer c a b) evs.
Proof.
  revert summaries s. induction chunks as [|chunk rest IH]; intros summaries s.
  - exists summaries, s, []. simpl. by rewrite app_nil_r.
  - simpl. unfold bind at 1. rewrite guarded_call.
    match goal with |- context [summarize_chunks _ _ _ _ ?acc ?st] =>
      destruct (IH acc st) as (out & s' & evs & Hrun & Hcalls & Hevs) end.
    exists out, s', (CallSummarizer chunk max_length min_length :: evs).
    split; [exact Hrun|]. split.
    + rewrite Hcalls. simpl. by rewrite <- app_assoc.
    + constructor; [by eauto|done].
Qed.

Lemma summarize_text_returns (env : Env) (text : str) (max_length min_length : Z)
    (s : State) :
  exists out s' evs,
    summarize_text env text max_length min_length s = (Ok out, s') /\
    calls s' = calls s ++ evs /\
    Forall (fun ev => exists c a b, ev = CallSummarizer c a b) evs.
Proof.
  destruct (chunk_text_default text) as [chunks Hchunks].
  destruct (summarize_chunks_returns env chunks max_length min_length [] s)
    as (out & s' & evs & Hrun & Hcalls & Hevs).
  unfold summarize_text, bind, lift. rewrite Hchunks, Hrun.
  by eexists _, s', evs.
Qed.

(** When the summarizer fails on every call, the loop adds no summary. *)
Lemma summarize_chunks_all_fail (env : Env) (chunks : list str)
    (max_length min_length : Z) (summaries : list str) (s : State) :
  (forall chunk w, exists e w',
      summarizer env chunk max_length min_length w = (Raise e, w')) ->
  exists s', summarize_chunks env chunks max_length min_length summaries s
             = (Ok summaries, s').
Proof.
  intros Hfail. revert s. induction chunks as [|chunk rest IH]; intros s.
  - by exists s.
  - simpl. unfold bind at 1. rewrite guarded_call.
    destruct (Hfail chunk (world s)) as (e & w' & ->). simpl. apply IH.
Qed.

Lemma summarize_text_all_fail (env : Env) (text : str)
    (max_length min_length : Z) (s : State) :
  (forall chunk w, exists e w',
      summarizer env chunk max_length min_length w = (Raise e, w')) ->
  exists s', summarize_text env text max_length min_length s = (Ok None, s').
Proof.
  intros Hfail.
  destruct (chunk_text_default text) as [chunks Hchunks].
  destruct (summarize_chunks_all_fail env chunks max_length min_length [] s Hfail)
    as [s' Hrun].
  unfold summarize_text, bind, lift. rewrite Hchunks, Hrun. by exists s'.
Qed.

(** C5: when a text has three chunks and the summarizer answers on the
    first, fails on the second and answers on the third, [summarize_text]
    returns the first summary, one space, and the third summary; the failed
    chunk is skipped and the three calls are made in chunk order. *)
Theorem summarize_text_skips_failed_chunk (env : Env) (text : str)
    (max_length min_length : Z) (s : State) (c1 c2 c3 : str)
    (summary1 summary3 : str) (e : exn) (w1 w2 w3 : World) :
  chunk_text text default_max_words = Ok [c1; c2; c3] ->
  summarizer env c1 max_length min_length (world s) = (Ok summary1, w1) ->
  summarizer env c2 max_length min_length w1 = (Raise e, w2) ->
  summarizer env c3 max_length min_length w2 = (Ok summary3, w3) ->
  summarize_text env text max_length min_length s =
    (Ok (Some (summary1 ++ py " " ++ summary3)),
     {| world := w3;
        calls := calls s ++ [CallSummarizer c1 max_length min_length;
                             CallSummarizer c2 max_length min_length;
                             CallSummarizer c3 max_length min_length] |}).
Proof.
  intros Hchunks H1 H2 H3.
  unfold summarize_text, bind at 1, lift. rewrite Hchunks.
  unfold bind at 1. simpl summarize_chunks.
  unfold bind at 1. rewrite guarded_call, H1. simpl.
  unfold bind at 1. rewrite guarded_call. simpl. rewrite H2. simpl.
  unfold bind at 1. rewrite guarded_call. simpl. rewrite H3. simpl.
  unfold ret. by rewrite <- !app_assoc.
Qed.

Lemma summarize_text_skips_failed_chunk_witness :
  (summarize_text env_second_chunk_fails long_text 150 50 (start empty_world)).1
  = Ok (Some (py "summary of call 0 summary of call 2")).
Proof.
  rewrite (summarize_text_skips_failed_chunk env_second_chunk_fails long_text
             150 50 (start empty_world)
             (join (py " ") (words_of 900)) (join (py " ") (words_of 900))
             (join (py " ") (words_of 200))
             (py "summary of call 0") (py "summary of call 2")
             (Exn RuntimeError (py "index out of range in self"))
             (tick empty_world) (tick (tick empty_world))
             (tick (tick (tick empty_world)))).
  - reflexivity.
  - vm_compute. reflexivity.
  - reflexivity.
  - reflexivity.
  - reflexivity.
Defined.

(** ** The stages, one call each *)

Lemma get_youtube_transcript_run (env : Env) (video_id : str) (s : State) :
  get_youtube_transcript env video_id s =
    (Ok (match (get_transcript env video_id (world s)).1 with
         | Ok (entry :: entries) =>
             Some (join (py " ") (map entry_text (entry :: entries)))
         | _ => None
         end),
     {| world := (get_transcript env video_id (world s)).2;
        calls := calls s ++ [CallGetTranscript video_id] |}).
Proof.
  unfold get_youtube_transcript. rewrite guarded_call.
  by destruct (get_transcript env video_id (world s)) as [[[|entry entries]|e] w].
Qed.

Lemma convert_audio_to_wav_run (env : Env) (input_audio output_audio : str)
    (s : State) :
  convert_audio_to_wav env input_audio output_audio s =
    (Ok (match (audio_convert env input_audio output_audio (world s)).1 with
         | Ok _ => Some output_audio
         | Raise _ => None
         end),
     {| world := (audio_convert env input_audio output_audio (world s)).2;
        calls := calls s ++ [CallAudioConvert input_audio output_audio] |}).
Proof. unfold convert_audio_to_wav. by rewrite guarded_call. Qed.

Lemma transcribe_audio_run (env : Env) (audio_file : str) (s : State) :
  transcribe_audio env audio_file s =
    (Ok (match (whisper_transcribe env audio_file (world s)).1 with
         | Ok text => Some text
         | Raise _ => None
         end),
     {| world := (whisper_transcribe env audio_file (world s)).2;
        calls := calls s ++ [CallTranscribe audio_file] |}).
Proof. unfold transcribe_audio. by rewrite guarded_call. Qed.

(** [download_audio] has no handler of its own: what [subprocess.run]
    raises, it raises. *)
Lemma download_audio_run (env : Env) (youtube_url output_path : str) (s : State) :
  download_audio env youtube_url output_path s =
    match subprocess_run env (ytdlp_command youtube_url output_path) (world s) with
    | (Ok _, w) =>
        (Ok (if bool_decide (output_path ∈ files w) then Some output_path else None),
         {| world := w;
            calls := calls s ++ [CallSubprocessRun (ytdlp_command youtube_url output_path);
                                 CallPathExists output_path] |})
    | (Raise e, w) =>
        (Raise e,
         {| world := w;
            calls := calls s ++ [CallSubprocessRun (ytdlp_command youtube_url output_path)] |})
    end.
Proof.
  unfold download_audio, bind, call, os_path_exists, call, ret. simpl.
  destruct (subprocess_run env _ (world s)) as [[[]|e] w]; simpl; [|done].
  rewrite <- app_assoc. simpl. by destruct (bool_decide _).
Qed.

(** The removal loop never raises; it calls nothing but [os.path.exists]
    and [os.remove], removes every listed file that is there, and leaves
    the other files and the services alone. *)
Lemma cleanup_run (paths : list str) (s : State) :
  exists evs s',
    cleanup paths s = (Ok tt, s') /\
    calls s' = calls s ++ evs /\
    audio_steps evs = [] /\
    files (world s') = files (world s) ∖ list_to_set paths /\
    services (world s') = services (world s) /\
    (forall file, CallRemove file ∈ evs <-> file ∈ paths /\ file ∈ files (world s)).
Proof.
  revert s. induction paths as [|file rest IH]; intros s.
  - exists [], s. simpl. rewrite app_nil_r.
    split; [done|]. split; [done|]. split; [done|]. split; [set_solver|].
    split; [done|]. intros f.
    split; [by intros ?%elem_of_nil | by intros [?%elem_of_nil _]].
  - simpl. unfold bind at 1, os_path_exists, call at 1. simpl.
    destruct (bool_decide (file ∈ files (world s))) eqn:Hin.
    + apply bool_decide_eq_true in Hin.
      unfold bind at 1, os_remove, call at 1. simpl.
      rewrite bool_decide_eq_true_2 by done.
      match goal with |- context [cleanup rest ?st] =>
        destruct (IH st) as (evs & s' & Hrun & Hcalls & Hsteps & Hfiles & Hsrv & Hrm) end.
      simpl in *.
      exists (CallPathExists file :: CallRemove file :: evs), s'.
      split; [exact Hrun|]. split; [by rewrite Hcalls, <- !app_assoc|].
      split; [exact Hsteps|]. split; [rewrite Hfiles; set_solver|].
      split; [done|].
      intros f. rewrite !elem_of_cons, Hrm.
      destruct (decide (f = file)) as [->|Hne]; [naive_solver|].
      split.
      * intros [?|[?|[? ?]]]; [done|naive_solver|set_solver].
      * intros [[?|?] ?]; [done|]. right. right. set_solver.
    + apply bool_decide_eq_false in Hin.
      unfold bind at 1, ret at 1.
      match goal with |- context [cleanup rest ?st] =>
        destruct (IH st) as (evs & s' & Hrun & Hcalls & Hsteps & Hfiles & Hsrv & Hrm) end.
      simpl in *.
      exists (CallPathExists file :: evs), s'.
      split; [exact Hrun|]. split; [by rewrite Hcalls, <- !app_assoc|].
      split; [exact Hsteps|]. split; [rewrite Hfiles; set_solver|].
      split; [done|].
      intros f. rewrite !elem_of_cons, Hrm.
      split.
      * intros [?|[? ?]]; [done|]. split; [by right|done].
      * intros [[->|?] ?]; [done|]. by right.
Qed.

Lemma summarizer_calls_no_audio_steps (evs : list Event) :
  Forall (fun ev => exists c a b, ev = CallSummarizer c a b) evs ->
  audio_steps evs = [] /\ (forall file, CallRemove file ∉ evs).
Proof.
  induction 1 as [|ev evs (c & a & b & ->) _ [IH1 IH2]]; split; try done.
  - intros file ?%elem_of_nil. done.
  - intros file [?|?]%elem_of_cons; [done|by eapply IH2].
Qed.

(** ** The audio path *)

Lemma audio_steps_app (evs1 evs2 : list Event) :
  audio_steps (evs1 ++ evs2) = audio_steps evs1 ++ audio_steps evs2.
Proof. apply omap_app. Qed.

(** What [process_audio] does, by the outcome of each step.  Each step
    runs only when the one before it gave a result. *)
Lemma process_audio_run (env : Env) (youtube_url : str) (s1 : State) :
  exists r s' evs,
    process_audio env youtube_url s1 = (r, s') /\
    calls s' = calls s1 ++ evs /\
    exists d s2,
      download_audio env youtube_url (py "audio.mp3") s1 = (d, s2) /\
      match d with
      | Raise e => r = Raise e /\ s' = s2 /\ audio_steps evs = [Download]
      | Ok None =>
          r = Ok (Some (py "Error: Failed to download audio")) /\ s' = s2 /\
          audio_steps evs = [Download]
      | Ok (Some input_audio) =>
          input_audio = py "audio.mp3" /\
          exists c s3,
            convert_audio_to_wav env input_audio (py "audio.wav") s2 = (Ok c, s3) /\
            match c with
            | None =>
                r = Ok (Some (py "Error: Failed to convert audio")) /\ s' = s3 /\
                audio_steps evs = [Download; Convert]
            | Some output_audio =>
                output_audio = py "audio.wav" /\
                audio_steps evs = [Download; Convert; Transcribe] /\
                exists t s4,
                  transcribe_audio env output_audio s3 = (Ok t, s4) /\
                  if truthy t
                  then
                    (exists summary s5,
                      summarize_text env (text_of t) 150 50 s4 = (Ok summary, s5) /\
                      r = Ok (if truthy summary then summary
                              else Some (py "Error: Summarization failed")) /\
                      (py "audio.mp3" ∉ files (world s')) /\
                      (py "audio.wav" ∉ files (world s')) /\
                      (forall file, file ∈ temporary_files ->
                                    file ∈ files (world s5) ->
                                    CallRemove file ∈ evs))
                  else
                    r = Ok (Some (py "Error: Failed to transcribe audio")) /\ s' = s4
            end
      end.
Proof.
  unfold process_audio.
  destruct (download_audio env youtube_url (py "audio.mp3") s1) as [d s2] eqn:Hd.
  pose proof Hd as Hd'. rewrite download_audio_run in Hd'.
  destruct (subprocess_run env _ (world s1)) as [[[]|e] w2];
    injection Hd' as <- <-.
  2:{ rewrite (bind_raise _ _ _ _ _ Hd).
      eexists _, _, _. split; [reflexivity|]. split; [reflexivity|].
      eexists _, _. split; [reflexivity|]. done. }
  rewrite (bind_ok _ _ _ _ _ Hd).
  destruct (bool_decide (py "audio.mp3" ∈ files w2)).
  2:{ eexists _, _, _. split; [reflexivity|]. split; [reflexivity|].
      eexists _, _. split; [reflexivity|]. done. }
  change (negb (truthy (Some (py "audio.mp3")))) with false.
  cbv iota. cbn [text_of].
  match goal with |- context [bind (convert_audio_to_wav env ?a ?b) _ ?st] =>
    destruct (convert_audio_to_wav env a b st) as [c s3] eqn:Hc end.
  pose proof Hc as Hc'. rewrite convert_audio_to_wav_run in Hc'. cbn [world calls] in Hc'.
  destruct (audio_convert env _ _ w2) as [[[]|e] w3];
    cbn [fst snd] in Hc'; injection Hc' as <- <-.
  2:{ rewrite (bind_ok _ _ _ _ _ Hc).
      eexists _, _, _. split; [reflexivity|].
      split; [cbn [calls]; rewrite <- app_assoc; reflexivity|].
      eexists _, _. split; [reflexivity|]. split; [done|].
      eexists _, _. split; [exact Hc|]. done. }
  rewrite (bind_ok _ _ _ _ _ Hc).
  change (negb (truthy (Some (py "audio.wav")))) with false.
  cbv iota. cbn [text_of].
  match goal with |- context [bind (transcribe_audio env ?a) _ ?st] =>
    destruct (transcribe_audio env a st) as [t s4] eqn:Ht end.
  pose proof Ht as Ht'. rewrite transcribe_audio_run in Ht'. cbn [world calls] in Ht'.
  destruct (whisper_transcribe env _ w3) as [[t'|e] w4];
    cbn [fst snd] in Ht'; injection Ht' as <- <-.
  2:{ rewrite (bind_ok _ _ _ _ _ Ht).
      eexists _, _, _. split; [reflexivity|].
      split; [cbn [calls]; rewrite <- !app_assoc; reflexivity|].
      eexists _, _. split; [reflexivity|]. split; [done|].
      eexists _, _. split; [exact Hc|]. split; [done|]. split; [done|].
      eexists _, _. split; [exact Ht|]. done. }
  rewrite (bind_ok _ _ _ _ _ Ht).
  destruct t' as [|c t'].
  { eexists _, _, _. split; [reflexivity|].
    split; [cbn [calls]; rewrite <- !app_assoc; reflexivity|].
    eexists _, _. split; [reflexivity|]. split; [done|].
    eexists _, _. split; [exact Hc|]. split; [done|]. split; [done|].
    eexists _, _. split; [exact Ht|]. done. }
  change (negb (truthy (Some (c :: t')))) with false.
  cbv iota. cbn [text_of].
  match goal with |- context [bind (summarize_text env ?x 150 50) _ ?st] =>
    destruct (summarize_text_returns env x 150 50 st)
      as (summary & s5 & evs5 & Hsum & Hcalls5 & Hevs5) end.
  destruct (cleanup_run temporary_files s5)
    as (evs6 & s6 & Hclean & Hcalls6 & Hsteps6 & Hfiles6 & _ & Hrm).
  apply summarizer_calls_no_audio_steps in Hevs5 as [Hsteps5 _].
  rewrite (bind_ok _ _ _ _ _ Hsum), (bind_ok _ _ _ _ _ Hclean). unfold ret.
  eexists _, s6,
    ([CallSubprocessRun (ytdlp_command youtube_url (py "audio.mp3"));
      CallPathExists (py "audio.mp3");
      CallAudioConvert (py "audio.mp3") (py "audio.wav");
      CallTranscribe (py "audio.wav")] ++ evs5 ++ evs6).
  split; [reflexivity|].
  split.
  { rewrite Hcalls6, Hcalls5. cbn [calls]. by rewrite <- !app_assoc. }
  eexists _, _. split; [reflexivity|]. split; [done|].
  eexists _, _. split; [exact Hc|]. split; [done|].
  split.
  { rewrite !audio_steps_app. by rewrite Hsteps5, Hsteps6. }
  eexists _, _. split; [exact Ht|]. change (truthy (Some (c :: t'))) with true.
  cbv iota. exists summary, s5. cbn [text_of]. split; [exact Hsum|]. split; [done|].
  split; [rewrite Hfiles6; set_solver|]. split; [rewrite Hfiles6; set_solver|].
  intros file Hin Hthere. rewrite !elem_of_app. right. right.
  apply Hrm. done.
Qed.

(** ** The coordinator *)

(** Once an identifier is extracted, the coordinator fetches the transcript
    and takes one of the two paths, all under its catch-all handler. *)
Lemma process_youtube_video_extracted (env : Env) (youtube_url video_id : str)
    (s : State) :
  extract_video_id (runtime env) youtube_url = Ok (Some video_id) ->
  video_id <> [] ->
  process_youtube_video env youtube_url s =
    try_except
      (do transcript <- get_youtube_transcript env video_id;
       if truthy transcript
       then summarize_text env (text_of transcript) 150 50
       else process_audio env youtube_url)
      (fun e => ret (Some (py "Error: " ++ exn_str e))) s.
Proof.
  intros Hid Hne. unfold process_youtube_video, try_except.
  unfold bind at 1, lift. rewrite Hid. by destruct video_id.
Qed.

Lemma process_youtube_video_no_transcript (env : Env) (youtube_url video_id : str)
    (s s1 : State) (t : option str) :
  extract_video_id (runtime env) youtube_url = Ok (Some video_id) ->
  video_id <> [] ->
  get_youtube_transcript env video_id s = (Ok t, s1) ->
  truthy t = false ->
  process_youtube_video env youtube_url s =
    match process_audio env youtube_url s1 with
    | (Ok a, s') => (Ok a, s')
    | (Raise e, s') => (Ok (Some (py "Error: " ++ exn_str e)), s')
    end.
Proof.
  intros Hid Hne Hget Ht.
  rewrite (process_youtube_video_extracted env youtube_url video_id s Hid Hne).
  unfold try_except. rewrite (bind_ok _ _ _ _ _ Hget), Ht. done.
Qed.

Lemma process_youtube_video_transcript (env : Env) (youtube_url video_id : str)
    (s s1 : State) (t : option str) :
  extract_video_id (runtime env) youtube_url = Ok (Some video_id) ->
  video_id <> [] ->
  get_youtube_transcript env video_id s = (Ok t, s1) ->
  truthy t = true ->
  process_youtube_video env youtube_url s = summarize_text env (text_of t) 150 50 s1.
Proof.
  intros Hid Hne Hget Ht.
  rewrite (process_youtube_video_extracted env youtube_url video_id s Hid Hne).
  unfold try_except. rewrite (bind_ok _ _ _ _ _ Hget), Ht.
  destruct (summarize_text_returns env (text_of t) 150 50 s1)
    as (out & s' & evs & -> & _). done.
Qed.

(** The coordinator never raises. *)
Lemma process_youtube_video_returns (env : Env) (youtube_url : str) (s : State) :
  exists v s', process_youtube_video env youtube_url s = (Ok v, s').
Proof.
  unfold process_youtube_video, try_except.
  match goal with |- context [match ?b s with _ => _ end] =>
    destruct (b s) as [[v|e] s'] end; by eauto.
Qed.




Lemma run_result {A} (run : result A * State) (a : result A) :
  run.1 = a -> run = (a, run.2).
Proof. destruct run. simpl. by intros ->. Qed.



(** C3, on the code: when the summarizer fails on every chunk, the audio
    path reports "Error: Summarization failed", but the platform-transcript
    path returns [None], the absent aggregate itself, and reports no error
    of the pipeline; the route then fails on ["Error" in None]. *)
Theorem summarization_failure_by_path :
  (summarize_text env_transcript_summarizer_down
     (py "hello world this is a test") 150 50 (start empty_world)).1 = Ok None /\
  (process_youtube_video env_audio_summarizer_down watch_url (start empty_world)).1
    = Ok (Some (py "Error: Summarization failed")) /\
  (process_youtube_video env_transcript_summarizer_down watch_url
     (start empty_world)).1 = Ok None /\
  (summarize env_transcript_summarizer_down
     (post [(py "youtube_url", JStr watch_url)]) (start empty_world)).1
    = Ok {| body := ErrorBody
                      (py "Server error: argument of type 'NoneType' is not iterable");
            status := 500 |}.
Proof. repeat split; vm_compute; reflexivity. Qed.

(** On either path, a summarizer that is down on every call leaves
    [summarize_text] without a result; the two paths differ in what they
    make of it. *)
Lemma all_chunks_fail_on_transcript_path (env : Env) (youtube_url video_id : str)
    (s s1 : State) (t : option str) :
  extract_video_id (runtime env) youtube_url = Ok (Some video_id) ->
  video_id <> [] ->
  get_youtube_transcript env video_id s = (Ok t, s1) ->
  truthy t = true ->
  (forall chunk w, exists e w', summarizer env chunk 150 50 w = (Raise e, w')) ->
  exists s', process_youtube_video env youtube_url s = (Ok None, s').
Proof.
  intros Hid Hne Hget Ht Hfail.
  rewrite (process_youtube_video_transcript env youtube_url video_id s s1 t
             Hid Hne Hget Ht).
  by apply summarize_text_all_fail.
Qed.

(** ** Exceptions at the stage boundaries *)

Lemma extract_video_id_returns (rt : Runtime) (youtube_url : str) :
  exists v, extract_video_id rt youtube_url = Ok v.
Proof.
  unfold extract_video_id, except_none.
  match goal with |- context [match ?b with _ => _ end] => destruct b end;
    by eauto.
Qed.

(** C8, as the code has it: extraction, transcript fetch, conversion,
    transcription and summarization each catch what their collaborator
    raises and return a value, and the coordinator never raises.  The
    download stage has no handler: it raises exactly what [subprocess.run]
    raises, and it is the coordinator's catch-all that turns this exception
    into the result "Error: " followed by its message. *)
Theorem stage_exceptions (env : Env) :
  (forall youtube_url, exists v, extract_video_id (runtime env) youtube_url = Ok v) /\
  (forall video_id s, exists v s', get_youtube_transcript env video_id s = (Ok v, s')) /\
  (forall input_audio output_audio s, exists v s',
      convert_audio_to_wav env input_audio output_audio s = (Ok v, s')) /\
  (forall audio_file s, exists v s', transcribe_audio env audio_file s = (Ok v, s')) /\
  (forall text max_length min_length s, exists v s',
      summarize_text env text max_length min_length s = (Ok v, s')) /\
  (forall youtube_url s, exists v s',
      process_youtube_video env youtube_url s = (Ok v, s')) /\
  (forall youtube_url output_path s e,
      (exists s', download_audio env youtube_url output_path s = (Raise e, s')) <->
      (exists w, subprocess_run env (ytdlp_command youtube_url output_path) (world s)
                 = (Raise e, w))) /\
  (forall youtube_url video_id s s1 t e w,
      extract_video_id (runtime env) youtube_url = Ok (Some video_id) ->
      video_id <> [] ->
      get_youtube_transcript env video_id s = (Ok t, s1) ->
      truthy t = false ->
      subprocess_run env (ytdlp_command youtube_url (py "audio.mp3")) (world s1)
        = (Raise e, w) ->
      exists s', process_youtube_video env youtube_url s
                 = (Ok (Some (py "Error: " ++ exn_str e)), s')).
Proof.
  split; [intros; apply extract_video_id_returns|].
  split; [intros; rewrite get_youtube_transcript_run; by eauto|].
  split; [intros; rewrite convert_audio_to_wav_run; by eauto|].
  split; [intros; rewrite transcribe_audio_run; by eauto|].
  split.
  { intros text a b s.
    destruct (summarize_text_returns env text a b s) as (v & s' & _ & H & _).
    by eauto. }
  split; [intros; apply process_youtube_video_returns|].
  split.
  - intros youtube_url output_path s e. rewrite download_audio_run.
    destruct (subprocess_run env _ (world s)) as [[[]|e'] w].
    + split; [by intros [s' ?]|by intros [w' ?]].
    + split.
      * intros [s' H]. injection H as -> _. by eauto.
      * intros [w' H]. injection H as -> _. by eauto.
  - intros youtube_url video_id s s1 t e w Hid Hne Hget Ht Hrun.
    rewrite (process_youtube_video_no_transcript env youtube_url video_id s s1 t
               Hid Hne Hget Ht).
    unfold process_audio.
    assert (download_audio env youtube_url (py "audio.mp3") s1
            = (Raise e, {| world := w;
                           calls := calls s1 ++
                             [CallSubprocessRun
                                (ytdlp_command youtube_url (py "audio.mp3"))] |}))
      as Hd by (by rewrite download_audio_run, Hrun).
    rewrite (bind_raise _ _ _ _ _ Hd). by eauto.
Qed.

Lemma stage_exceptions_witness :
  exists s',
    process_youtube_video env_ytdlp_missing watch_url (start empty_world)
    = (Ok (Some (py "Error: " ++
                 py "[Errno 2] No such file or directory: 'yt-dlp'")), s').
Proof.
  destruct (stage_exceptions env_ytdlp_missing)
    as (_ & _ & _ & _ & _ & _ & _ & Hcatch).
  apply (Hcatch watch_url (py "abc123") (start empty_world)
           (get_youtube_transcript env_ytdlp_missing (py "abc123")
              (start empty_world)).2
           None
           (Exn FileNotFoundError
                (py "[Errno 2] No such file or directory: 'yt-dlp'"))
           empty_world).
  - reflexivity.
  - discriminate.
  - reflexivity.
  - reflexivity.
  - reflexivity.
Defined.

(** C8 as stated fails at the download stage: on a machine without yt-dlp
    the exception of [subprocess.run] leaves [download_audio] as it is. *)
Lemma download_audio_lets_exceptions_escape :
  (download_audio env_ytdlp_missing watch_url (py "audio.mp3") (start empty_world)).1
  = Raise (Exn FileNotFoundError
               (py "[Errno 2] No such file or directory: 'yt-dlp'")).
Proof. reflexivity. Qed.

(** ** The route *)

(** The response of the route, by what the request holds and what the
    pipeline returns. *)
Lemma summarize_run (env : Env) (request : Request) (s : State) :
  exists resp s',
    summarize env request s = (Ok resp, s') /\
    match read_request (runtime env) request with
    | Raise e =>
        resp = {| body := ErrorBody (py "Server error: " ++ exn_str e);
                  status := 500 |} /\ s' = s
    | Ok ([], _, _) =>
        resp = {| body := ErrorBody (py "No YouTube URL provided");
                  status := 400 |} /\ s' = s
    | Ok (c :: url, _, _) =>
        exists r,
          process_youtube_video env (c :: url) s = (Ok r, s') /\
          match r with
          | None =>
              resp = {| body := ErrorBody
                                  (py "Server error: argument of type 'NoneType' is not iterable");
                        status := 500 |}
          | Some text =>
              if contains (py "Error") text
              then resp = {| body := ErrorBody text; status := 500 |}
              else resp = {| body := SummaryBody text; status := 200 |}
          end
    end.
Proof.
  unfold summarize, try_except. unfold bind at 1, lift.
  destruct (read_request (runtime env) request) as [[[url mx] mn]|e].
  2:{ by eexists _, _. }
  destruct url as [|c url]; [by eexists _, _|].
  destruct (process_youtube_video_returns env (c :: url) s) as (r & s' & Hrun).
  rewrite (bind_ok _ _ _ _ _ Hrun). unfold bind, lift, error_in.
  destruct r as [text|].
  - destruct (contains (py "Error") text) eqn:Herr;
      eexists _, _; (split; [reflexivity|]); exists (Some text);
      (split; [done|]); by rewrite Herr.
  - eexists _, _. split; [reflexivity|]. by exists None.
Qed.

(** C9: whenever [process_youtube_video] returns a string that contains
    "Error", be it an error of the pipeline or a summary in which the word
    occurs, the route answers with that string as the error and status
    500. *)
Theorem error_substring_means_failure (env : Env) (request : Request)
    (s s1 : State) (youtube_url summary : str) (max_length min_length : Z) :
  read_request (runtime env) request = Ok (youtube_url, max_length, min_length) ->
  youtube_url <> [] ->
  process_youtube_video env youtube_url s = (Ok (Some summary), s1) ->
  contains (py "Error") summary = true ->
  summarize env request s = (Ok {| body := ErrorBody summary; status := 500 |}, s1).
Proof.
  intros Hreq Hne Hrun Herr.
  destruct (summarize_run env request s) as (resp & s' & -> & Hcases).
  rewrite Hreq in Hcases. destruct youtube_url as [|c url]; [done|].
  destruct Hcases as (r & Hrun' & Hresp).
  rewrite Hrun in Hrun'. injection Hrun' as <- <-.
  rewrite Herr in Hresp. by rewrite Hresp.
Qed.

Lemma error_substring_means_failure_witness :
  (summarize (env_transcript (py "Error rates fell by half"))
     (post [(py "youtube_url", JStr watch_url)]) (start empty_world)).1
  = Ok {| body := ErrorBody (py "Error rates fell by half"); status := 500 |}.
Proof.
  rewrite (error_substring_means_failure
             (env_transcript (py "Error rates fell by half"))
             (post [(py "youtube_url", JStr watch_url)])
             (start empty_world)
             (process_youtube_video (env_transcript (py "Error rates fell by half"))
                watch_url (start empty_world)).2
             watch_url (py "Error rates fell by half") 150 50).
  - reflexivity.
  - reflexivity.
  - discriminate.
  - apply run_result. vm_compute. reflexivity.
  - reflexivity.
Defined.

(** A URL from which no identifier is extracted makes the pipeline return
    "Error: Invalid YouTube URL" without calling anything. *)
Lemma process_youtube_video_invalid (env : Env) (youtube_url : str) (s : State)
    (video_id : option str) :
  extract_video_id (runtime env) youtube_url = Ok video_id ->
  truthy video_id = false ->
  process_youtube_video env youtube_url s
  = (Ok (Some (py "Error: Invalid YouTube URL")), s).
Proof.
  intros Hid Hfalse. unfold process_youtube_video, try_except.
  unfold bind at 1, lift. rewrite Hid.
  by destruct video_id as [[|c cs]|].
Qed.




(** ** Strings without a given character *)

Lemma mem_false (c : char) (s : str) :
  mem c s = false <-> Forall (fun x => x <> c) s.
Proof.
  unfold mem. induction s as [|x s IH]; simpl.
  - split; [constructor|done].
  - rewrite orb_false_iff, IH, Forall_cons, N.eqb_neq. naive_solver.
Qed.

Lemma mem_app (c : char) (u v : str) : mem c (u ++ v) = mem c u || mem c v.
Proof. unfold mem. apply existsb_app. Qed.

(** A string of characters of a class has none of the characters outside
    the class. *)
Lemma class_excludes (p : char -> bool) (c : char) (s : str) :
  p c = false -> forallb p s = true -> mem c s = false.
Proof.
  intros Hc Hs. apply mem_false.
  induction s as [|x s IH]; [constructor|].
  simpl in Hs. apply andb_true_iff in Hs as [Hx Hs].
  constructor; [|by apply IH]. intros ->. by rewrite Hc in Hx.
Qed.

Lemma remove_char_app (c : char) (u v : str) :
  remove_char c (u ++ v) = remove_char c u ++ remove_char c v.
Proof. apply List.filter_app. Qed.

Lemma remove_char_absent (c : char) (s : str) :
  mem c s = false -> remove_char c s = s.
Proof.
  rewrite mem_false. induction 1 as [|x s Hx Hs IH]; [done|].
  unfold remove_char in *. simpl. rewrite IH.
  by destruct (N.eqb_spec x c).
Qed.


Lemma str_find_absent (c : char) (s : str) : mem c s = false -> str_find c s = None.
Proof.
  rewrite mem_false. induction 1 as [|x s Hx Hs IH]; [done|].
  simpl. rewrite IH. by destruct (N.eqb_spec x c).
Qed.

Lemma str_find_app (c : char) (u v : str) :
  mem c u = false ->
  str_find c (u ++ v) = option_map (fun i => (length u + i)%nat) (str_find c v).
Proof.
  rewrite mem_false. induction 1 as [|x u Hx Hu IH]; simpl.
  - by destruct (str_find c v).
  - destruct (N.eqb_spec x c); [done|]. rewrite IH. by destruct (str_find c v).
Qed.

Lemma str_find_here (c : char) (u v : str) :
  mem c u = false -> str_find c (u ++ c :: v) = Some (length u).
Proof.
  intros Hu. rewrite str_find_app by done. simpl. rewrite N.eqb_refl. simpl.
  f_equal. lia.
Qed.


Lemma split_once_absent (c : char) (s : str) :
  mem c s = false -> split_once c s = (s, None).
Proof. intros Hs. unfold split_once. by rewrite str_find_absent. Qed.




(** ** [urlsplit] on a URL with a host *)

Lemma py_slashes (s : str) : py "//" ++ s = 47%N :: 47%N :: s.
Proof. reflexivity. Qed.

(** The network location ends where the path begins. *)
Lemma splitnetloc_host (host rest : str) :
  mem (chr "/") host = false ->
  mem (chr "?") host = false ->
  mem (chr "#") host = false ->
  splitnetloc (py "//" ++ host ++ chr "/" :: rest) 2 = (host, chr "/" :: rest).
Proof.
  intros Hslash Hquery Hhash. unfold splitnetloc.
  set (url := py "//" ++ host ++ chr "/" :: rest).
  assert (drop 2 url = host ++ chr "/" :: rest) as Hdrop by reflexivity.
  assert (length url = S (S (length host + S (length rest)))) as Hlen.
  { unfold url. rewrite py_slashes. simpl. by rewrite length_app. }
  assert (str_find_from (chr "/") 2 url = Some (2 + length host)%nat) as H1.
  { unfold str_find_from. rewrite Hdrop. by rewrite str_find_here. }
  assert (forall c, mem c host = false -> c <> chr "/" ->
            match str_find_from c 2 url with
            | Some k => (2 + length host < k)%nat
            | None => True
            end) as Hother.
  { intros c Hc Hne. unfold str_find_from. rewrite Hdrop, str_find_app by done.
    cbn [str_find]. destruct (N.eqb_spec (chr "/") c) as [Heq|_]; [by destruct Hne|].
    destruct (str_find c rest); cbn [option_map]; [lia|done]. }
  pose proof (Hother (chr "?") Hquery ltac:(done)) as H2.
  pose proof (Hother (chr "#") Hhash ltac:(done)) as H3.
  change (py "/?#") with [chr "/"; chr "?"; chr "#"]. cbn [fold_left].
  rewrite H1.
  destruct (str_find_from (chr "?") 2 url) as [k2|];
    destruct (str_find_from (chr "#") 2 url) as [k3|];
    rewrite Hlen;
    match goal with |- (take ?n _, drop ?d _) = _ =>
      replace n with (length host) by lia;
      replace d with (2 + length host)%nat by lia
    end;
    rewrite <- (drop_drop url (length host) 2), Hdrop,
      take_app_length, drop_app_length; done.
Qed.

Lemma split_once_pair (c : char) (s : str) :
  match split_once c s with
  | (u, Some f) => (u, f)
  | (u, None) => (u, [])
  end = ((split_once c s).1, text_of (split_once c s).2).
Proof. by destruct (split_once c s) as [u [f|]]. Qed.

Lemma remove_unsafe_app (u v : str) : remove_unsafe_bytes (u ++ v) = remove_unsafe_bytes u ++ remove_unsafe_bytes v.
Proof. unfold remove_unsafe_bytes. by rewrite !remove_char_app. Qed.

Lemma remove_unsafe_absent (s : str) :
  mem TAB s = false -> mem CR s = false -> mem LF s = false -> remove_unsafe_bytes s = s.
Proof.
  intros H1 H2 H3. unfold remove_unsafe_bytes.
  by rewrite (remove_char_absent TAB s), (remove_char_absent CR s),
    (remove_char_absent LF s).
Qed.

Lemma remove_unsafe_class (p : char -> bool) (s : str) :
  p TAB = false -> p CR = false -> p LF = false ->
  forallb p s = true -> remove_unsafe_bytes s = s.
Proof. intros. apply remove_unsafe_absent; by eapply class_excludes. Qed.

Lemma host_char_ascii (host : str) :
  forallb host_char host = true -> forallb isascii host = true.
Proof.
  induction host as [|c host IH]; [done|]. simpl.
  rewrite !andb_true_iff. intros [Hc Hhost]. split; [|by apply IH].
  unfold host_char, isalpha_ascii, isdigit_ascii, isascii in *.
  change (mem c (py "-.")) with ((c =? 45) || ((c =? 46) || false))%N in Hc.
  rewrite !orb_true_iff, !andb_true_iff, !N.leb_le, !N.eqb_eq in Hc.
  apply N.ltb_lt. lia.
Qed.

Lemma web_scheme_facts (protocol : str) :
  web_scheme protocol ->
  (forall s, drop_while c0_control_or_space (protocol ++ py "://" ++ s)
             = protocol ++ py "://" ++ s) /\
  remove_unsafe_bytes protocol = protocol /\
  (forall s, split_scheme (protocol ++ py "://" ++ s) = (protocol, py "//" ++ s)) /\
  bool_decide (protocol ∈ uses_params) = true.
Proof. intros [-> | ->]; repeat split. Qed.

(** [urlsplit] on "http" or "https", "://", a host name, and a path: the
    scheme and the host are found, and the rest is cut at the first ["#"] and then
    at the first ["?"]. *)
Lemma urlsplit_web (rt : Runtime) (protocol host rest : str) :
  web_scheme protocol ->
  host <> [] ->
  forallb host_char host = true ->
  urlsplit rt (protocol ++ py "://" ++ host ++ chr "/" :: rest) =
    let url := chr "/" :: remove_unsafe_bytes rest in
    let without_fragment := (split_once (chr "#") url).1 in
    Ok (protocol, host,
        (split_once (chr "?") without_fragment).1,
        text_of (split_once (chr "?") without_fragment).2,
        text_of (split_once (chr "#") url).2).
Proof.
  intros Hscheme Hne Hhost. unfold urlsplit.
  destruct (web_scheme_facts protocol Hscheme) as (Hstrip & Hclean & Hsplit & _).
  assert (forall c, host_char c = false -> mem c host = false) as Hnot.
  { intros c Hc. by eapply class_excludes. }
  rewrite Hstrip.
  rewrite remove_unsafe_app, (remove_unsafe_app (py "://")),
    (remove_unsafe_app host (chr "/" :: rest)).
  rewrite Hclean, (remove_unsafe_class host_char host) by done.
  change (remove_unsafe_bytes (py "://")) with (py "://").
  change (remove_unsafe_bytes (chr "/" :: rest))
    with (chr "/" :: remove_unsafe_bytes rest).
  rewrite Hsplit.
  cbv beta iota zeta.
  change (is_prefix (py "//") (py "//" ++ host ++ chr "/" :: remove_unsafe_bytes rest))
    with true.
  cbv iota.
  rewrite splitnetloc_host by (by apply Hnot).
  rewrite (Hnot (chr "[")), (Hnot (chr "]")) by done.
  cbn [andb orb negb rbind].
  rewrite !split_once_pair.
  unfold checknetloc. rewrite (host_char_ascii host Hhost).
  by destruct host.
Qed.





(** ** [parse_qs] *)


Lemma id_char_excludes (c : char) (video_id : str) :
  id_char c = false -> forallb id_char video_id = true -> mem c video_id = false.
Proof. apply class_excludes. Qed.


(** ** [extract_video_id] on the recognized forms *)



Lemma contains_nonempty (needle host : str) :
  needle <> [] -> contains needle host = true -> host <> [].
Proof. intros Hne Hc ->. destruct needle; [done|discriminate]. Qed.






(** * Further properties *)

(** ** More on [chunk_text] *)

Lemma range_down_from_zero (stop step : Z) :
  (0 <= stop)%Z -> range_down (Z.to_nat (0 - stop)) 0 stop step = [].
Proof. intros H. by replace (Z.to_nat (0 - stop)) with O by lia. Qed.

(** X1: A [max_words] of zero makes [range] raise [ValueError], and a negative
    one gives an empty range: no chunk at all, whatever the text. *)
Theorem chunk_text_without_positive_max_words (text : str) (max_words : Z) :
  (max_words <= 0)%Z ->
  chunk_text text max_words =
    if (max_words =? 0)%Z
    then Raise (Exn ValueError (py "range() arg 3 must not be zero"))
    else Ok [].
Proof.
  intros Hm. unfold chunk_text, py_range.
  destruct (Z.eqb_spec max_words 0); [done|].
  destruct (Z.ltb_spec 0 max_words); [lia|].
  rewrite range_down_from_zero by lia. done.
Qed.

Lemma chunk_text_without_positive_max_words_witness :
  chunk_text (py "one two three") (-2) = Ok [] /\
  chunk_text (py "one two three") 0
    = Raise (Exn ValueError (py "range() arg 3 must not be zero")).
Proof.
  split.
  - apply (chunk_text_without_positive_max_words (py "one two three") (-2)). lia.
  - apply (chunk_text_without_positive_max_words (py "one two three") 0). lia.
Defined.

Lemma map_split_join (gs : list (list str)) :
  Forall (fun g => Forall word g) gs ->
  map split (map (join (py " ")) gs) = gs.
Proof.
  induction 1 as [|g gs Hg Hgs IH]; [done|].
  simpl. by rewrite split_join, IH.
Qed.

Lemma chunk_words (text : str) (max_words : Z) (chunks : list str) :
  (1 <= max_words)%Z ->
  chunk_text text max_words = Ok chunks ->
  map split chunks = windows_from (split text) max_words (length (split text)) 0.
Proof.
  intros Hm Hchunks. rewrite chunk_text_windows in Hchunks by done.
  injection Hchunks as <-. apply map_split_join.
  eapply Forall_impl; [by apply windows_words|]. by intros g [_ ?].
Qed.

(** X2: The chunks partition the words of the text: reading the words of the
    chunks one chunk after the other gives the words of the text, none
    lost, repeated or out of order; so the word counts of the chunks add up
    to the word count of the text. *)
Theorem chunk_text_keeps_the_words (text : str) (max_words : Z) (chunks : list str) :
  (1 <= max_words)%Z ->
  chunk_text text max_words = Ok chunks ->
  concat (map split chunks) = split text /\
  foldr Z.add 0%Z (map word_count chunks) = word_count text.
Proof.
  intros Hm Hchunks.
  assert (concat (map split chunks) = split text) as Hwords.
  { rewrite (chunk_words text max_words chunks Hm Hchunks).
    rewrite windows_from_concat by lia. done. }
  split; [exact Hwords|].
  unfold word_count at 2. rewrite <- Hwords. clear.
  induction chunks as [|c chunks IH]; [done|].
  simpl. rewrite length_app, Nat2Z.inj_add, IH. done.
Qed.

Lemma chunk_text_keeps_the_words_witness :
  concat (map split [py "one two"; py "three four"; py "five"])
    = split (py "  one two   three four five ") /\
  foldr Z.add 0%Z (map word_count [py "one two"; py "three four"; py "five"])
    = word_count (py "  one two   three four five ").
Proof.
  apply (chunk_text_keeps_the_words (py "  one two   three four five ") 2).
  - lia.
  - reflexivity.
Defined.

(** X3: A text of at most [max_words] words is one chunk, the text with its
    white space normalized; a text without words is no chunk. *)
Theorem chunk_text_short_text (text : str) (max_words : Z) :
  (1 <= max_words)%Z ->
  (word_count text <= max_words)%Z ->
  chunk_text text max_words =
    Ok (match split text with [] => [] | _ => [normalize_ws text] end).
Proof.
  intros Hm Hshort. rewrite chunk_text_windows by done. f_equal.
  unfold word_count in Hshort. unfold normalize_ws.
  destruct (split text) as [|w ws] eqn:Hsplit; [done|].
  cbn [length] in Hshort.
  destruct (windows_from_step (w :: ws) max_words Hm (length (w :: ws)) 0)
    as (fuel & _ & _ & ->); [cbn [length]; lia|lia|].
  rewrite windows_from_done by (cbn [length]; lia).
  assert (slice (w :: ws) 0 (0 + max_words) = w :: ws) as ->; [|done].
  rewrite slice_window by (cbn [length]; lia).
  rewrite Z.sub_0_r. change (Z.to_nat 0) with O. rewrite drop_0.
  apply take_ge. cbn [length]. lia.
Qed.

Lemma chunk_text_short_text_witness :
  chunk_text (py " hello   world ") 900 = Ok [py "hello world"] /\
  chunk_text (py "   ") 900 = Ok [].
Proof.
  split.
  - apply (chunk_text_short_text (py " hello   world ") 900); [lia|].
    vm_compute. discriminate.
  - apply (chunk_text_short_text (py "   ") 900); [lia|].
    vm_compute. discriminate.
Defined.

(** X4: Chunking again what the chunks spell gives the same chunks. *)
Theorem chunk_text_again (text : str) (max_words : Z) (chunks : list str) :
  (1 <= max_words)%Z ->
  chunk_text text max_words = Ok chunks ->
  chunk_text (join (py " ") chunks) max_words = Ok chunks.
Proof.
  intros Hm Hchunks. rewrite <- Hchunks.
  assert (split (join (py " ") chunks) = split text) as Hsame.
  { rewrite chunk_text_windows in Hchunks by done. injection Hchunks as <-.
    pose proof (windows_words text max_words (length (split text)) 0
                  (Z.le_refl 0) Hm) as Hws.
    rewrite join_concat by (eapply Forall_impl; [exact Hws|by intros g [? _]]).
    rewrite windows_from_concat by lia. simpl.
    apply split_join, split_words. }
  unfold chunk_text. by rewrite Hsame.
Qed.

Lemma chunk_text_again_witness :
  chunk_text (join (py " ") [py "one two"; py "three four"; py "five"]) 2
  = Ok [py "one two"; py "three four"; py "five"].
Proof.
  apply (chunk_text_again (py "  one two   three four five ") 2).
  - lia.
  - reflexivity.
Defined.

(** ** More on [summarize_text] *)

Lemma summarize_chunks_calls (env : Env) (chunks : list str)
    (max_length min_length : Z) (summaries : list str) (s : State) :
  calls (summarize_chunks env chunks max_length min_length summaries s).2
  = calls s ++ map (fun chunk => CallSummarizer chunk max_length min_length) chunks.
Proof.
  revert summaries s. induction chunks as [|chunk rest IH]; intros summaries s.
  - simpl. by rewrite app_nil_r.
  - cbn [summarize_chunks]. unfold bind at 1. rewrite guarded_call.
    rewrite IH. cbn [calls map]. by rewrite <- app_assoc.
Qed.

Lemma summarize_text_calls_chunks (env : Env) (text : str)
    (max_length min_length : Z) (s : State) (chunks : list str) :
  chunk_text text default_max_words = Ok chunks ->
  calls (summarize_text env text max_length min_length s).2
  = calls s ++ map (fun chunk => CallSummarizer chunk max_length min_length) chunks.
Proof.
  intros Hchunks.
  pose proof (summarize_chunks_calls env chunks max_length min_length [] s) as Hcalls.
  unfold summarize_text, bind at 1, lift. rewrite Hchunks.
  unfold bind.
  destruct (summarize_chunks env chunks max_length min_length [] s) as [[out|e] s'];
    exact Hcalls.
Qed.

(** X5: [summarize_text] calls the summarizer once for every chunk of the
    text, in chunk order and with the bounds it was given, whether the
    calls succeed or fail, and calls nothing else. *)
Theorem summarize_text_calls (env : Env) (text : str)
    (max_length min_length : Z) (s : State) :
  exists chunks,
    chunk_text text default_max_words = Ok chunks /\
    calls (summarize_text env text max_length min_length s).2
    = calls s ++ map (fun chunk => CallSummarizer chunk max_length min_length) chunks.
Proof.
  destruct (chunk_text_default text) as [chunks Hchunks].
  exists chunks. split; [done|]. by apply summarize_text_calls_chunks.
Qed.

Lemma summarize_chunks_answers (env : Env) (answer : str -> result str)
    (chunks : list str) (max_length min_length : Z) (summaries : list str)
    (s : State) :
  answers_by env max_length min_length answer ->
  (summarize_chunks env chunks max_length min_length summaries s).1
  = Ok (summaries ++ omap (fun chunk => answer_text (answer chunk)) chunks).
Proof.
  intros Hanswer. revert summaries s.
  induction chunks as [|chunk rest IH]; intros summaries s.
  - simpl. by rewrite app_nil_r.
  - cbn [summarize_chunks]. unfold bind at 1. rewrite guarded_call.
    rewrite IH, Hanswer. cbn [omap list_omap].
    destruct (answer chunk) as [summary|e]; cbn [answer_text]; [|done].
    by rewrite <- app_assoc.
Qed.

(** X6: With a summarizer whose answer depends on the chunk alone, the result
    of [summarize_text] is the summaries of the chunks it answered on,
    in chunk order and separated by single spaces; it is [None] exactly
    when it answered on none. *)
Theorem summarize_text_joins_the_answers (env : Env) (answer : str -> result str)
    (text : str) (max_length min_length : Z) (s : State) (chunks : list str) :
  answers_by env max_length min_length answer ->
  chunk_text text default_max_words = Ok chunks ->
  (summarize_text env text max_length min_length s).1
  = Ok (match omap (fun chunk => answer_text (answer chunk)) chunks with
        | [] => None
        | summaries => Some (join (py " ") summaries)
        end).
Proof.
  intros Hanswer Hchunks.
  pose proof (summarize_chunks_answers env answer chunks max_length min_length
                [] s Hanswer) as Hrun.
  unfold summarize_text, bind at 1, lift. rewrite Hchunks. unfold bind.
  destruct (summarize_chunks env chunks max_length min_length [] s)
    as [[out|e] s']; cbn [fst] in Hrun; [|done].
  injection Hrun as ->. cbn [app].
  by destruct (omap (fun chunk => answer_text (answer chunk)) chunks).
Qed.

Lemma summarize_text_joins_the_answers_witness :
  (summarize_text env_first_word (py "hello world  this is a test") 150 50
     (start empty_world)).1 = Ok (Some (py "hello")).
Proof.
  rewrite (summarize_text_joins_the_answers env_first_word first_word
             (py "hello world  this is a test") 150 50 (start empty_world)
             [py "hello world this is a test"]).
  - reflexivity.
  - intros chunk w. reflexivity.
  - reflexivity.
Defined.

Lemma chunk_text_no_words (text : str) (max_words : Z) :
  (1 <= max_words)%Z -> split text = [] -> chunk_text text max_words = Ok [].
Proof.
  intros Hm Hsplit. rewrite chunk_text_windows by done. rewrite Hsplit.
  by rewrite windows_from_done.
Qed.

(** X7: A text without a word, empty or all white space, has no chunk:
    [summarize_text] returns [None] and the summarizer is not called. *)
Theorem summarize_text_without_words (env : Env) (text : str)
    (max_length min_length : Z) (s : State) :
  split text = [] ->
  summarize_text env text max_length min_length s = (Ok None, s).
Proof.
  intros Hsplit. unfold summarize_text, bind at 1, lift.
  rewrite (chunk_text_no_words text default_max_words) by done. done.
Qed.

Lemma summarize_text_without_words_witness :
  summarize_text env_first_word (py "   ") 150 50 (start empty_world)
  = (Ok None, start empty_world).
Proof. apply summarize_text_without_words. reflexivity. Defined.

(** ** From the transcript to the chunks *)

Lemma split_from_space (a b cur : str) :
  split_from cur (a ++ py " " ++ b) = split_from cur a ++ split b.
Proof.
  revert cur. induction a as [|c a IH]; intros cur.
  - by destruct cur.
  - cbn [app split_from]. destruct (isspace c).
    + destruct cur; [apply IH|]. by rewrite IH.
    + apply IH.
Qed.

Lemma split_joined (texts : list str) :
  split (join (py " ") texts) = concat (map split texts).
Proof.
  induction texts as [|x texts IH]; [done|].
  destruct texts as [|y texts].
  - simpl. by rewrite app_nil_r.
  - change (join (py " ") (x :: y :: texts))
      with (x ++ py " " ++ join (py " ") (y :: texts)).
    unfold split at 1. rewrite split_from_space, IH. done.
Qed.

(** X8: The words that reach the summarizer are the words of the transcript
    entries: when the lookup gives a transcript, the words of its chunks,
    read in order, are the words of the entries' texts, read in order. *)
Theorem transcript_words_reach_the_chunks (env : Env) (video_id : str)
    (s s1 : State) (transcript : str) (chunks : list str) :
  get_youtube_transcript env video_id s = (Ok (Some transcript), s1) ->
  chunk_text transcript default_max_words = Ok chunks ->
  exists entries,
    (get_transcript env video_id (world s)).1 = Ok entries /\
    concat (map split chunks)
    = concat (map (fun entry => split (entry_text entry)) entries).
Proof.
  intros Hget Hchunks. rewrite get_youtube_transcript_run in Hget.
  destruct (get_transcript env video_id (world s)) as [[[|entry entries]|e] w];
    cbn [fst] in Hget; try done.
  assert (transcript = join (py " ") (map entry_text (entry :: entries))) as ->.
  { injection Hget as Heq _. symmetry. exact Heq. }
  exists (entry :: entries). split; [done|].
  rewrite (chunk_words _ default_max_words chunks) by done.
  rewrite windows_from_concat by (unfold default_max_words; lia).
  change (Z.to_nat 0) with O. rewrite drop_0, split_joined, map_map. done.
Qed.

Lemma transcript_words_reach_the_chunks_witness :
  exists entries,
    (get_transcript env_first_word (py "abc123") (world (start empty_world))).1
      = Ok entries /\
    concat (map split [py "hello world this is a test"])
    = concat (map (fun entry => split (entry_text entry)) entries).
Proof.
  apply (transcript_words_reach_the_chunks env_first_word (py "abc123")
           (start empty_world)
           (get_youtube_transcript env_first_word (py "abc123") (start empty_world)).2
           (py "hello world this is a test")).
  - reflexivity.
  - reflexivity.
Defined.

(** ** More on [process_youtube_video] *)

(** X9: With a platform transcript the audio path is not entered: the pipeline
    fetches the transcript, calls the summarizer once per chunk of it, and
    calls nothing else; its result is the result of [summarize_text]. *)
Theorem transcript_path_skips_the_audio (env : Env) (youtube_url video_id : str)
    (s s1 : State) (transcript : str) :
  extract_video_id (runtime env) youtube_url = Ok (Some video_id) ->
  video_id <> [] ->
  get_youtube_transcript env video_id s = (Ok (Some transcript), s1) ->
  transcript <> [] ->
  process_youtube_video env youtube_url s = summarize_text env transcript 150 50 s1 /\
  exists chunks,
    chunk_text transcript default_max_words = Ok chunks /\
    calls (process_youtube_video env youtube_url s).2
    = calls s ++ CallGetTranscript video_id
               :: map (fun chunk => CallSummarizer chunk 150 50) chunks.
Proof.
  intros Hid Hne Hget Htext.
  assert (process_youtube_video env youtube_url s
          = summarize_text env transcript 150 50 s1) as Hrun.
  { rewrite (process_youtube_video_transcript env youtube_url video_id s s1
               (Some transcript)); [done|done|done|done|by destruct transcript]. }
  split; [exact Hrun|]. rewrite Hrun.
  destruct (chunk_text_default transcript) as [chunks Hchunks].
  exists chunks. split; [done|].
  assert (calls s1 = calls s ++ [CallGetTranscript video_id]) as Hs1.
  { rewrite get_youtube_transcript_run in Hget. by injection Hget as _ <-. }
  rewrite (summarize_text_calls_chunks env transcript 150 50 s1 chunks Hchunks).
  by rewrite Hs1, <- app_assoc.
Qed.

Lemma transcript_path_skips_the_audio_witness :
  calls (process_youtube_video env_first_word watch_url (start empty_world)).2
  = [CallGetTranscript (py "abc123");
     CallSummarizer (py "hello world this is a test") 150 50].
Proof.
  destruct (transcript_path_skips_the_audio env_first_word watch_url (py "abc123")
              (start empty_world)
              (get_youtube_transcript env_first_word (py "abc123")
                 (start empty_world)).2
              (py "hello world this is a test"))
    as (_ & chunks & Hchunks & Hcalls).
  - reflexivity.
  - discriminate.
  - reflexivity.
  - discriminate.
  - rewrite Hcalls. vm_compute in Hchunks. injection Hchunks as <-. reflexivity.
Defined.

(** X10: A platform transcript that is white space only counts as found, has
    no chunk, and makes the pipeline return [None] without a call of the
    summarizer. *)
Theorem blank_transcript_gives_none (env : Env) (youtube_url video_id : str)
    (s s1 : State) (transcript : str) :
  extract_video_id (runtime env) youtube_url = Ok (Some video_id) ->
  video_id <> [] ->
  get_youtube_transcript env video_id s = (Ok (Some transcript), s1) ->
  transcript <> [] ->
  split transcript = [] ->
  process_youtube_video env youtube_url s = (Ok None, s1).
Proof.
  intros Hid Hne Hget Htext Hsplit.
  rewrite (process_youtube_video_transcript env youtube_url video_id s s1
             (Some transcript)); [|done|done|done|by destruct transcript].
  cbn [text_of]. unfold summarize_text, bind at 1, lift.
  rewrite (chunk_text_no_words transcript default_max_words) by done. done.
Qed.

Lemma blank_transcript_gives_none_witness :
  (process_youtube_video env_blank_transcript watch_url (start empty_world)).1
  = Ok None.
Proof.
  rewrite (blank_transcript_gives_none env_blank_transcript watch_url (py "abc123")
             (start empty_world)
             (get_youtube_transcript env_blank_transcript (py "abc123")
                (start empty_world)).2
             (py "    ")).
  - reflexivity.
  - reflexivity.
  - discriminate.
  - reflexivity.
  - discriminate.
  - reflexivity.
Defined.

(** The audio path always returns a string. *)
Lemma process_audio_gives_text (env : Env) (youtube_url : str) (s1 s' : State)
    (r : option str) :
  process_audio env youtube_url s1 = (Ok r, s') -> r <> None.
Proof.
  intros Hrun.
  destruct (process_audio_run env youtube_url s1)
    as (r0 & s0 & evs & Haudio & _ & d & s2 & _ & Hcases).
  rewrite Hrun in Haudio. injection Haudio as <- <-.
  destruct d as [[input_audio|]|e].
  - destruct Hcases as (_ & c & s3 & _ & Hcases). destruct c as [output_audio|].
    + destruct Hcases as (_ & _ & t & s4 & _ & Hcases). destruct (truthy t).
      * destruct Hcases as (summary & s5 & _ & Hr & _). injection Hr as ->.
        by destruct summary as [[|c cs]|].
      * destruct Hcases as [Hr _]. by injection Hr as ->.
    + destruct Hcases as [Hr _]. by injection Hr as ->.
  - destruct Hcases as [Hr _]. by injection Hr as ->.
  - by destruct Hcases as [Hr _].
Qed.

(** X11: The pipeline returns [None] in one case only: a platform transcript
    was found and [summarize_text] had no summary for it.  Every other run ends in
    a string, a summary or an error message. *)
Theorem none_only_from_the_transcript_path (env : Env) (youtube_url : str)
    (s s' : State) :
  process_youtube_video env youtube_url s = (Ok None, s') ->
  exists video_id transcript s1,
    extract_video_id (runtime env) youtube_url = Ok (Some video_id) /\
    video_id <> [] /\
    get_youtube_transcript env video_id s = (Ok (Some transcript), s1) /\
    transcript <> [] /\
    summarize_text env transcript 150 50 s1 = (Ok None, s').
Proof.
  intros Hrun.
  destruct (extract_video_id_returns (runtime env) youtube_url) as [v Hid].
  destruct (truthy v) eqn:Hv.
  2:{ rewrite (process_youtube_video_invalid env youtube_url s v Hid Hv) in Hrun.
      done. }
  destruct v as [[|c video_id]|]; try done.
  destruct (get_youtube_transcript env (c :: video_id) s) as [t s1] eqn:Hget.
  pose proof Hget as Hget'. rewrite get_youtube_transcript_run in Hget'.
  injection Hget' as Ht _.
  destruct t as [t|e]; [|by destruct (get_transcript env _ _).1 as [[|? ?]|]].
  clear Ht. destruct (truthy t) eqn:Htruthy.
  - rewrite (process_youtube_video_transcript env youtube_url (c :: video_id)
               s s1 t Hid ltac:(done) Hget Htruthy) in Hrun.
    destruct t as [[|c' t]|]; try done.
    exists (c :: video_id), (c' :: t), s1. by repeat split.
  - rewrite (process_youtube_video_no_transcript env youtube_url (c :: video_id)
               s s1 t Hid ltac:(done) Hget Htruthy) in Hrun.
    destruct (process_audio env youtube_url s1) as [[r|e] s0] eqn:Haudio; [|done].
    injection Hrun as -> _.
    by apply process_audio_gives_text in Haudio.
Qed.

Lemma none_only_from_the_transcript_path_witness :
  exists video_id transcript s1,
    extract_video_id (runtime env_transcript_summarizer_down) watch_url
      = Ok (Some video_id) /\
    video_id <> [] /\
    get_youtube_transcript env_transcript_summarizer_down video_id
      (start empty_world) = (Ok (Some transcript), s1) /\
    transcript <> [] /\
    summarize_text env_transcript_summarizer_down transcript 150 50 s1
      = (Ok None,
         (process_youtube_video env_transcript_summarizer_down watch_url
            (start empty_world)).2).
Proof.
  apply (none_only_from_the_transcript_path env_transcript_summarizer_down
           watch_url (start empty_world)).
  apply run_result. reflexivity.
Defined.

(** X12: The download counts as done when audio.mp3 is on disk after yt-dlp has
    run, whoever wrote it: with a file left there before, the pipeline goes
    on to the conversion although yt-dlp wrote nothing. *)
Theorem download_trusts_the_file (env : Env) (youtube_url video_id : str)
    (s s1 : State) (t : option str) (w : World) :
  extract_video_id (runtime env) youtube_url = Ok (Some video_id) ->
  video_id <> [] ->
  get_youtube_transcript env video_id s = (Ok t, s1) ->
  truthy t = false ->
  subprocess_run env (ytdlp_command youtube_url (py "audio.mp3")) (world s1)
    = (Ok tt, w) ->
  py "audio.mp3" ∈ files w ->
  exists evs,
    calls (process_youtube_video env youtube_url s).2 = calls s1 ++ evs /\
    Convert ∈ audio_steps evs.
Proof.
  intros Hid Hne Hget Ht Hrun Hfile.
  rewrite (process_youtube_video_no_transcript env youtube_url video_id s s1 t
             Hid Hne Hget Ht).
  destruct (process_audio_run env youtube_url s1)
    as (r & s' & evs & Haudio & Hcalls & d & s2 & Hd & Hcases).
  rewrite Haudio. exists evs.
  split; [by destruct r|].
  rewrite download_audio_run, Hrun in Hd.
  rewrite bool_decide_eq_true_2 in Hd by done. injection Hd as <- <-.
  destruct Hcases as (_ & c & s3 & _ & Hcases).
  destruct c as [output_audio|].
  - destruct Hcases as (_ & -> & _). set_solver.
  - destruct Hcases as (_ & _ & ->). set_solver.
Qed.

Lemma download_trusts_the_file_witness :
  exists evs,
    calls (process_youtube_video env_download_fails watch_url (start stale_world)).2
    = calls (get_youtube_transcript env_download_fails (py "abc123")
               (start stale_world)).2 ++ evs /\
    Convert ∈ audio_steps evs.
Proof.
  apply (download_trusts_the_file env_download_fails watch_url (py "abc123")
           (start stale_world) _ None stale_world).
  - reflexivity.
  - discriminate.
  - reflexivity.
  - reflexivity.
  - reflexivity.
  - apply (bool_decide_unpack _). vm_compute. exact I.
Defined.

(** ** What the pipeline leaves alone *)

Section Respects.
Context (R : State -> State -> Prop).
Hypothesis R_refl : forall s, R s s.
Hypothesis R_trans : forall s1 s2 s3, R s1 s2 -> R s2 s3 -> R s1 s3.

Lemma respects_ret {A} (a : A) : respects R (ret a).
Proof using R_refl. intros s r s' [= _ <-]. apply R_refl. Qed.

Lemma respects_lift {A} (x : result A) : respects R (lift x).
Proof using R_refl. intros s r s' [= _ <-]. apply R_refl. Qed.

Lemma respects_bind {A B} (m : M A) (k : A -> M B) :
  respects R m -> (forall a, respects R (k a)) -> respects R (bind m k).
Proof using R_trans.
  intros Hm Hk s r s' Hrun. unfold bind in Hrun.
  destruct (m s) as [[a|e] s1] eqn:Hms.
  - eapply R_trans; [by eapply Hm|by eapply Hk].
  - injection Hrun as _ <-. by eapply Hm.
Qed.

Lemma respects_try_except {A} (body : M A) (handler : exn -> M A) :
  respects R body -> (forall e, respects R (handler e)) ->
  respects R (try_except body handler).
Proof using R_trans.
  intros Hbody Hhandler s r s' Hrun. unfold try_except in Hrun.
  destruct (body s) as [[a|e] s1] eqn:Hbs.
  - injection Hrun as _ <-. by eapply Hbody.
  - eapply R_trans; [by eapply Hbody|by eapply Hhandler].
Qed.

Context (env : Env).

Lemma respects_summarize_text (text : str) (max_length min_length : Z) :
  (forall chunk,
     respects R (call (CallSummarizer chunk max_length min_length)
                      (summarizer env chunk max_length min_length))) ->
  respects R (summarize_text env text max_length min_length).
Proof using R_refl R_trans.
  intros Hstep. unfold summarize_text.
  apply respects_bind; [apply respects_lift|]. intros chunks.
  apply respects_bind; [|intros summaries; apply respects_ret].
  generalize (@nil str) as summaries.
  induction chunks as [|chunk rest IH]; intros summaries; cbn [summarize_chunks].
  - apply respects_ret.
  - apply respects_bind; [|intros ?; apply IH].
    apply respects_try_except; [|intros ?; apply respects_ret].
    apply respects_bind; [apply Hstep|intros ?; apply respects_ret].
Qed.

Lemma respects_cleanup (paths : list str) :
  (forall file, respects R (os_path_exists file)) ->
  (forall file, file ∈ paths -> respects R (os_remove file)) ->
  respects R (cleanup paths).
Proof using R_refl R_trans.
  intros Hexists Hremove.
  induction paths as [|file rest IH]; cbn [cleanup]; [apply respects_ret|].
  apply respects_bind; [apply Hexists|]. intros present.
  apply respects_bind.
  - destruct present; [|apply respects_ret]. apply Hremove. set_solver.
  - intros _. apply IH. intros f Hf. apply Hremove. set_solver.
Qed.

Hypothesis steps : Steps R env 150 50.

Lemma respects_process_audio (youtube_url : str) :
  respects R (process_audio env youtube_url).
Proof using R_refl R_trans steps.
  unfold process_audio.
  apply respects_bind.
  { unfold download_audio.
    apply respects_bind; [apply (step_subprocess_run _ _ _ _ steps)|]. intros _.
    apply respects_bind; [apply (step_path_exists _ _ _ _ steps)|].
    intros present. destruct present; apply respects_ret. }
  intros input_audio. destruct (negb (truthy input_audio)); [apply respects_ret|].
  apply respects_bind.
  { unfold convert_audio_to_wav.
    apply respects_try_except; [|intros ?; apply respects_ret].
    apply respects_bind; [apply (step_audio_convert _ _ _ _ steps)|].
    intros ?; apply respects_ret. }
  intros output_audio. destruct (negb (truthy output_audio)); [apply respects_ret|].
  apply respects_bind.
  { unfold transcribe_audio.
    apply respects_try_except; [|intros ?; apply respects_ret].
    apply respects_bind; [apply (step_transcribe _ _ _ _ steps)|].
    intros ?; apply respects_ret. }
  intros transcript. destruct (negb (truthy transcript)); [apply respects_ret|].
  apply respects_bind.
  { apply respects_summarize_text. apply (step_summarizer _ _ _ _ steps). }
  intros summary.
  apply respects_bind; [|intros ?; apply respects_ret].
  apply respects_cleanup.
  - apply (step_path_exists _ _ _ _ steps).
  - apply (step_remove _ _ _ _ steps).
Qed.

Lemma respects_process_youtube_video (youtube_url : str) :
  respects R (process_youtube_video env youtube_url).
Proof using R_refl R_trans steps.
  unfold process_youtube_video.
  apply respects_try_except; [|intros ?; apply respects_ret].
  apply respects_bind; [apply respects_lift|]. intros video_id.
  destruct video_id as [[|c cs]|]; try apply respects_ret.
  apply respects_bind.
  { unfold get_youtube_transcript.
    apply respects_try_except; [|intros ?; apply respects_ret].
    apply respects_bind; [apply (step_get_transcript _ _ _ _ steps)|].
    intros ?; apply respects_ret. }
  intros transcript. destruct (truthy transcript).
  - apply respects_summarize_text. apply (step_summarizer _ _ _ _ steps).
  - apply respects_process_audio.
Qed.

Lemma respects_summarize (request : Request) :
  respects R (summarize env request).
Proof using R_refl R_trans steps.
  unfold summarize.
  apply respects_try_except; [|intros ?; apply respects_ret].
  apply respects_bind; [apply respects_lift|]. intros [[youtube_url a] b].
  destruct youtube_url as [|c url]; [apply respects_ret|].
  apply respects_bind; [apply respects_process_youtube_video|]. intros summary.
  apply respects_bind; [apply respects_lift|]. intros failed.
  destruct failed; apply respects_ret.
Qed.

End Respects.

Lemma adds_calls_refl (P : Event -> Prop) (s : State) : adds_calls P s s.
Proof. exists []. by rewrite app_nil_r. Qed.

Lemma adds_calls_trans (P : Event -> Prop) (s1 s2 s3 : State) :
  adds_calls P s1 s2 -> adds_calls P s2 s3 -> adds_calls P s1 s3.
Proof.
  intros (evs1 & H1 & HP1) (evs2 & H2 & HP2). exists (evs1 ++ evs2).
  split; [by rewrite H2, H1, app_assoc|by apply Forall_app].
Qed.

Lemma call_adds {A} (P : Event -> Prop) (ev : Event)
    (f : World -> result A * World) :
  P ev -> respects (adds_calls P) (call ev f).
Proof.
  intros Hev s r s' Hrun. unfold call in Hrun.
  destruct (f (world s)) as [r0 w]. injection Hrun as _ <-.
  exists [ev]. split; [done|by constructor].
Qed.

(** When every call the pipeline can make satisfies [P], so does every
    call it makes. *)
Lemma steps_add_calls (P : Event -> Prop) (env : Env) :
  (forall video_id, P (CallGetTranscript video_id)) ->
  (forall command, P (CallSubprocessRun command)) ->
  (forall input_audio output_audio, P (CallAudioConvert input_audio output_audio)) ->
  (forall audio_file, P (CallTranscribe audio_file)) ->
  (forall chunk, P (CallSummarizer chunk 150 50)) ->
  (forall file, P (CallPathExists file)) ->
  (forall file, file ∈ temporary_files -> P (CallRemove file)) ->
  Steps (adds_calls P) env 150 50.
Proof.
  intros. split; intros; unfold os_path_exists, os_remove; apply call_adds; auto.
Qed.

(** X13: The bounds of a request are read and then dropped: whatever
    [max_length] and [min_length] a request carries, every call of the
    summarizer made while it is served has the bounds 150 and 50. *)
Theorem request_bounds_never_reach_the_summarizer (env : Env) (request : Request)
    (s : State) :
  adds_calls default_bounds s (summarize env request s).2.
Proof.
  apply (respects_summarize (adds_calls default_bounds)
           (adds_calls_refl _) (adds_calls_trans _) env
           (steps_add_calls default_bounds env
              ltac:(done) ltac:(done) ltac:(done) ltac:(done) ltac:(done)
              ltac:(done) ltac:(done))
           request s (summarize env request s).1).
  by destruct (summarize env request s).
Qed.

(** X14: The only files the route ever asks to remove are audio.mp3 and
    audio.wav. *)
Theorem only_temporary_files_are_removed (env : Env) (request : Request)
    (s : State) :
  adds_calls removes_temporary s (summarize env request s).2.
Proof.
  apply (respects_summarize (adds_calls removes_temporary)
           (adds_calls_refl _) (adds_calls_trans _) env
           (steps_add_calls removes_temporary env
              ltac:(done) ltac:(done) ltac:(done) ltac:(done) ltac:(done)
              ltac:(done) ltac:(done))
           request s (summarize env request s).1).
  by destruct (summarize env request s).
Qed.

Lemma call_leaves_file {A} (file : str) (ev : Event)
    (f : World -> result A * World) :
  leaves_file file f -> respects (same_file file) (call ev f).
Proof.
  intros Hf s r s' Hrun. unfold call in Hrun. specialize (Hf (world s)).
  destruct (f (world s)) as [r0 w]. injection Hrun as _ <-. exact Hf.
Qed.

Lemma steps_leave_file (file : str) (env : Env) :
  file ∉ temporary_files ->
  env_leaves_file file env ->
  Steps (same_file file) env 150 50.
Proof.
  intros Hfile (Hget & Hrun & Hconv & Hwh & Hsum).
  split; intros; try (apply call_leaves_file; auto).
  - intros w. done.
  - intros w. cbn. destruct (bool_decide (file0 ∈ files w)); cbn; [|done].
    assert (file <> file0) by (by intros ->). set_solver.
Qed.

Lemma same_file_refl (file : str) (s : State) : same_file file s s.
Proof. done. Qed.

Lemma same_file_trans (file : str) (s1 s2 s3 : State) :
  same_file file s1 s2 -> same_file file s2 s3 -> same_file file s1 s3.
Proof. unfold same_file. naive_solver. Qed.

(** X15: A file other than audio.mp3 and audio.wav that the collaborators
    neither create nor delete is on disk after a request exactly if it was
    before: the code of the pipeline itself touches no other file. *)
Theorem other_files_are_left_alone (env : Env) (request : Request) (s : State)
    (file : str) :
  file ∉ temporary_files ->
  env_leaves_file file env ->
  file ∈ files (world s) <-> file ∈ files (world (summarize env request s).2).
Proof.
  intros Hfile Henv.
  apply (respects_summarize (same_file file)
           (same_file_refl file) (same_file_trans file) env
           (steps_leave_file file env Hfile Henv)
           request s (summarize env request s).1).
  by destruct (summarize env request s).
Qed.

Lemma with_file_other (file other : str) (w : World) :
  file <> other -> file ∈ files w <-> file ∈ files (with_file other w).
Proof. intros Hne. unfold with_file. cbn [files]. set_solver. Qed.

Lemma other_files_are_left_alone_witness :
  py "notes.txt" ∈ files (world (start world_with_notes)) <->
  py "notes.txt" ∈
    files (world (summarize (env_audio (py "a test"))
                    (post [(py "youtube_url", JStr watch_url)])
                    (start world_with_notes)).2).
Proof.
  apply (other_files_are_left_alone (env_audio (py "a test"))
           (post [(py "youtube_url", JStr watch_url)]) (start world_with_notes)
           (py "notes.txt")).
  - apply (bool_decide_unpack _). vm_compute. exact I.
  - split; [|split; [|split; [|split]]]; intros x w0.
    + done.
    + by apply (with_file_other (py "notes.txt") (py "audio.mp3")).
    + by apply (with_file_other (py "notes.txt") (py "audio.wav")).
    + done.
    + done.
Defined.

(** ** More on [extract_video_id] *)

Lemma is_prefix_contains (p pre s : str) :
  is_prefix p s = true -> contains p (pre ++ s) = true.
Proof.
  intros Hp. induction pre as [|x pre IH].
  - destruct s; simpl; by rewrite Hp.
  - cbn [app contains]. rewrite IH. apply orb_true_r.
Qed.

Lemma drop_while_suffix (p : char -> bool) (s : str) :
  exists pre, s = pre ++ drop_while p s.
Proof.
  induction s as [|c s [pre IH]]; [by exists []|].
  cbn [drop_while]. destruct (p c); [|by exists []].
  exists (c :: pre). cbn [app]. by rewrite <- IH.
Qed.

Lemma split_scheme_suffix (s : str) : exists pre, s = pre ++ (split_scheme s).2.
Proof.
  unfold split_scheme.
  destruct (str_find (chr ":") s) as [[|i]|]; [by exists []| |by exists []].
  destruct s as [|c0 s]; [by exists []|].
  destruct (isascii c0 && isalpha_ascii c0 && forallb scheme_char (take (S i) (c0 :: s)));
    [|by exists []].
  exists (take (S (S i)) (c0 :: s)). cbn [snd]. by rewrite take_drop.
Qed.

(** Without two slashes in a row there is no network location. *)
Lemma urlparse_without_slashes (rt : Runtime) (url : str) :
  contains (py "//") (remove_unsafe_bytes url) = false ->
  exists parsed_url, urlparse rt url = Ok parsed_url /\ netloc parsed_url = [].
Proof.
  intros Hno. unfold urlparse, urlsplit.
  destruct (drop_while_suffix c0_control_or_space url) as [pre1 H1].
  set (url2 := remove_unsafe_bytes (drop_while c0_control_or_space url)).
  destruct (split_scheme_suffix url2) as [pre2 H2].
  destruct (split_scheme url2) as [sch url3]. cbn [snd] in H2.
  assert (is_prefix (py "//") url3 = false) as ->.
  { destruct (is_prefix (py "//") url3) eqn:Hp; [|done].
    rewrite H1, remove_unsafe_app in Hno. fold url2 in Hno.
    rewrite H2, app_assoc in Hno.
    by rewrite (is_prefix_contains _ _ _ Hp) in Hno. }
  cbn [rbind checknetloc]. rewrite !split_once_pair. cbn [rbind].
  match goal with |- context [if ?b then splitparams ?u else _] =>
    destruct b; [destruct (splitparams u)|] end; by eexists.
Qed.

(** X16: A URL in which no two slashes follow each other has no network
    location, so no identifier is extracted from it, whatever else it
    holds: "youtube.com/watch?v=abc123", pasted without its scheme, is not
    a valid URL for the pipeline, which then calls nothing. *)
Theorem url_without_double_slash_is_invalid (env : Env) (youtube_url : str)
    (s : State) :
  contains (py "//") (remove_unsafe_bytes youtube_url) = false ->
  extract_video_id (runtime env) youtube_url = Ok None /\
  process_youtube_video env youtube_url s
  = (Ok (Some (py "Error: Invalid YouTube URL")), s).
Proof.
  intros Hno.
  assert (extract_video_id (runtime env) youtube_url = Ok None) as Hid.
  { destruct (urlparse_without_slashes (runtime env) youtube_url Hno)
      as (parsed_url & Hparse & Hnetloc).
    unfold extract_video_id. rewrite Hparse. cbn [rbind]. by rewrite Hnetloc. }
  split; [exact Hid|].
  by apply (process_youtube_video_invalid env youtube_url s None).
Qed.

Lemma url_without_double_slash_is_invalid_witness :
  extract_video_id (runtime (env_transcript (py "a test")))
    (py "youtube.com/watch?v=abc123") = Ok None /\
  process_youtube_video (env_transcript (py "a test"))
    (py "youtube.com/watch?v=abc123") (start empty_world)
  = (Ok (Some (py "Error: Invalid YouTube URL")), start empty_world).
Proof.
  apply url_without_double_slash_is_invalid. reflexivity.
Defined.

Lemma mem_remove_char (c x : char) (s : str) :
  mem c s = false -> mem c (remove_char x s) = false.
Proof.
  rewrite !mem_false. unfold remove_char. intros Hs.
  induction Hs as [|y s Hy Hs IH]; [constructor|].
  cbn [List.filter]. destruct (negb (y =? x)%N); [by constructor|done].
Qed.

Lemma mem_remove_unsafe (c : char) (s : str) :
  mem c s = false -> mem c (remove_unsafe_bytes s) = false.
Proof. intros Hs. unfold remove_unsafe_bytes. by do 3 apply mem_remove_char. Qed.

(** X17: A URL of a host that contains "youtube.com" but has no query (a
    channel page, an embed or shorts link, the home page) gives no
    identifier: only the "v" parameter is read, never the path. *)
Theorem youtube_url_without_query (rt : Runtime) (protocol host rest : str) :
  web_scheme protocol ->
  forallb host_char host = true ->
  contains (py "youtube.com") host = true ->
  mem (chr "?") rest = false ->
  mem (chr "#") rest = false ->
  extract_video_id rt (protocol ++ py "://" ++ host ++ py "/" ++ rest) = Ok None.
Proof.
  intros Hscheme Hhost Hyt Hquery Hhash.
  unfold extract_video_id, urlparse.
  change (protocol ++ py "://" ++ host ++ py "/" ++ rest)
    with (protocol ++ py "://" ++ host ++ chr "/" :: rest).
  rewrite urlsplit_web;
    [|done|by apply (contains_nonempty (py "youtube.com"))|done].
  cbv zeta.
  assert (forall c, mem c rest = false -> c <> chr "/" ->
            split_once c (chr "/" :: remove_unsafe_bytes rest)
            = (chr "/" :: remove_unsafe_bytes rest, None)) as Hsplit.
  { intros c Hc Hne. apply split_once_absent.
    change (chr "/" :: remove_unsafe_bytes rest)
      with (py "/" ++ remove_unsafe_bytes rest).
    rewrite mem_app, (mem_remove_unsafe c rest Hc), orb_false_r.
    cbn. rewrite orb_false_r. by apply N.eqb_neq. }
  rewrite (Hsplit (chr "#")) by done. cbn [fst snd text_of].
  rewrite (Hsplit (chr "?")) by done. cbn [fst snd text_of rbind].
  match goal with |- context [if ?b then splitparams ?u else _] =>
    destruct b; [destruct (splitparams u)|] end;
    cbn [rbind netloc query]; rewrite Hyt; done.
Qed.

Lemma youtube_url_without_query_witness :
  extract_video_id ascii_runtime
    (py "https" ++ py "://" ++ py "www.youtube.com" ++ py "/" ++ py "shorts/dQw4w9WgXcQ")
  = Ok None.
Proof.
  apply youtube_url_without_query; by (right || reflexivity).
Defined.

(** ** More on the route *)

Lemma drop_while_nil (p : char -> bool) (s : str) :
  drop_while p s = [] <-> forallb p s = true.
Proof.
  induction s as [|c s IH]; [done|]. cbn [drop_while forallb].
  destruct (p c); [exact IH|]. done.
Qed.

(** [strip] leaves nothing exactly of the strings that are white space
    throughout. *)
Lemma strip_nil (s : str) : strip s = [] <-> forallb isspace s = true.
Proof.
  unfold strip. split.
  - intros Hstrip. apply drop_while_nil.
    destruct (drop_while isspace s) as [|c t] eqn:Hdrop; [done|].
    assert (isspace c = false) as Hc.
    { destruct s as [|x s]; [done|]. clear Hstrip.
      induction (x :: s) as [|y l IH]; [done|].
      cbn [drop_while] in Hdrop. destruct (isspace y) eqn:Hy; [by apply IH|].
      by injection Hdrop as <- _. }
    apply (f_equal (@rev N)) in Hstrip. rewrite rev_involutive in Hstrip.
    apply drop_while_nil in Hstrip.
    cbn [rev] in Hstrip. rewrite forallb_app in Hstrip.
    cbn in Hstrip. rewrite Hc in Hstrip. by rewrite andb_false_r in Hstrip.
  - intros Hs. apply drop_while_nil in Hs. by rewrite Hs.
Qed.

Lemma summarize_read_failure (env : Env) (request : Request) (s : State) (e : exn) :
  read_request (runtime env) request = Raise e ->
  summarize env request s
  = (Ok {| body := ErrorBody (py "Server error: " ++ exn_str e); status := 500 |}, s).
Proof.
  intros Hread. unfold summarize, try_except, bind, lift. by rewrite Hread.
Qed.

Lemma summarize_no_url (env : Env) (request : Request) (s : State)
    (max_length min_length : Z) :
  read_request (runtime env) request = Ok ([], max_length, min_length) ->
  summarize env request s
  = (Ok {| body := ErrorBody (py "No YouTube URL provided"); status := 400 |}, s).
Proof.
  intros Hread. unfold summarize, try_except, bind, lift. by rewrite Hread.
Qed.

(** X18: The bounds are converted before the URL is looked at: a request whose
    [max_length] is not a number is answered with status 500 and the
    message of the conversion, without a call to the pipeline, even when
    its URL is missing or blank. *)
Theorem bad_bound_fails_before_the_url_check (env : Env)
    (members : list (str * json)) (s : State) (bound : json) (e : exn) :
  (assoc (py "youtube_url") members = None \/
   exists url, assoc (py "youtube_url") members = Some (JStr url)) ->
  assoc (py "max_length") members = Some bound ->
  py_int (runtime env) bound = Raise e ->
  summarize env (post members) s
  = (Ok {| body := ErrorBody (py "Server error: " ++ exn_str e); status := 500 |}, s).
Proof.
  intros Hurl Hbound Hint. apply summarize_read_failure.
  unfold read_request, post. cbn [get_json rbind json_get].
  rewrite Hbound. destruct Hurl as [->|[url ->]]; cbn [rbind json_strip];
    by rewrite Hint.
Qed.

Lemma bad_bound_fails_before_the_url_check_witness :
  summarize (env_transcript (py "a test"))
    (post [(py "youtube_url", JStr (py "  ")); (py "max_length", JNull)])
    (start empty_world)
  = (Ok {| body := ErrorBody
             (py "Server error: " ++
              py "int() argument must be a string, a bytes-like object or a real number, not 'NoneType'");
           status := 500 |},
     start empty_world).
Proof.
  apply (bad_bound_fails_before_the_url_check (env_transcript (py "a test"))
           [(py "youtube_url", JStr (py "  ")); (py "max_length", JNull)]
           (start empty_world) JNull
           (Exn TypeError
              (py "int() argument must be a string, a bytes-like object or a real number, not 'NoneType'"))).
  - right. by exists (py "  ").
  - reflexivity.
  - reflexivity.
Defined.

(** X19: With bounds that convert, the route answers "No YouTube URL provided"
    with status 400 exactly when the request has no "youtube_url" or has a
    string of white space only (the empty string included) there. *)
Theorem no_url_means_missing_or_blank (env : Env) (members : list (str * json))
    (s : State) (max_length min_length : Z) :
  rbind (json_get (JObject members) (py "max_length") (JInt 150))
        (py_int (runtime env)) = Ok max_length ->
  rbind (json_get (JObject members) (py "min_length") (JInt 50))
        (py_int (runtime env)) = Ok min_length ->
  (summarize env (post members) s).1
    = Ok {| body := ErrorBody (py "No YouTube URL provided"); status := 400 |}
  <->
  (assoc (py "youtube_url") members = None \/
   exists url, assoc (py "youtube_url") members = Some (JStr url) /\
               forallb isspace url = true).
Proof.
  intros Hmax Hmin.
  assert (read_request (runtime env) (post members)
          = rbind (rbind (json_get (JObject members) (py "youtube_url") (JStr []))
                         json_strip)
                  (fun url => Ok (url, max_length, min_length))) as Hread.
  { unfold read_request, post. cbn [get_json].
    change (rbind (Ok ?x) ?k) with (k x). cbv beta.
    destruct (rbind (json_get (JObject members) (py "youtube_url") (JStr []))
                    json_strip) as [url|e]; [|done].
    change (rbind (Ok ?x) ?k) with (k x). cbv beta.
    rewrite Hmax. change (rbind (Ok ?x) ?k) with (k x). cbv beta.
    rewrite Hmin. done. }
  split.
  - intros Hresp.
    destruct (summarize_run env (post members) s) as (resp & s' & Hrun & Hcases).
    rewrite Hrun in Hresp. cbn [fst] in Hresp. injection Hresp as ->.
    rewrite Hread in Hcases. cbn [json_get] in Hcases.
    destruct (assoc (py "youtube_url") members) as [v|]; [|by left].
    right. destruct v; cbn [rbind json_strip] in Hcases;
      try (by destruct Hcases as [[=] _]).
    destruct (strip s0) as [|c url] eqn:Hstrip.
    + exists s0. split; [done|]. by apply strip_nil.
    + destruct Hcases as (r & _ & Hresp). destruct r as [text|]; [|done].
      by destruct (contains (py "Error") text).
  - intros Hurl. rewrite (summarize_no_url env (post members) s max_length min_length);
      [done|].
    rewrite Hread. cbn [json_get].
    destruct Hurl as [->|(url & -> & Hblank)]; [done|].
    cbn [rbind json_strip]. apply strip_nil in Hblank. by rewrite Hblank.
Qed.

Lemma no_url_means_missing_or_blank_witness :
  (summarize (env_transcript (py "a test"))
     (post [(py "youtube_url", JStr (py "   ")); (py "max_length", JInt 80)])
     (start empty_world)).1
  = Ok {| body := ErrorBody (py "No YouTube URL provided"); status := 400 |}.
Proof.
  apply (no_url_means_missing_or_blank (env_transcript (py "a test"))
           [(py "youtube_url", JStr (py "   ")); (py "max_length", JInt 80)]
           (start empty_world) 80 50).
  - reflexivity.
  - reflexivity.
  - right. exists (py "   "). by split.
Defined.

(** ** More on the removal of the temporary files *)



